(** * qutebrowser: completion models and main window

    A shallow embedding of [qutebrowser/models/completion.py] and
    [qutebrowser/widgets/mainwindow.py], and the properties of the
    specification proved (or refuted) against it.

    Conventions.
    - Python [str] values are [string]s holding the UTF-8 bytes of the text;
      byte-wise lexicographic order on UTF-8 is code point order, which is how
      Python compares [str].
    - A Python call either returns or raises: [result] for pure helpers, [run]
      for methods, which also carries the state the object is left in and the
      debug messages logged on the way.
    - Dictionaries are stdpp [gmap]s where only lookup matters and association
      lists where the iteration order is visible in the output. *)

From Stdlib Require Import ZArith QArith String Ascii List Sorting Permutation OrdersEx.
From stdpp Require Import gmap strings list sorting.

Local Open Scope string_scope.
Local Open Scope list_scope.
Local Open Scope Z_scope.

(** ** Python values, exceptions and string helpers *)

Module Py.

(** The values the configuration hands out with [raw=True], and the [None]
    default of an optional argument. *)
Inductive pyval :=
| PyNone
| PyStr (s : string).

(** [bool(v)]: [None] and the empty string are falsy. *)
Definition truthy (v : pyval) : bool :=
  match v with
  | PyNone => false
  | PyStr EmptyString => false
  | PyStr (String _ _) => true
  end.

(** [str(v)], which is also what [str.format] substitutes for [{}]. *)
Definition py_str (v : pyval) : string :=
  match v with
  | PyNone => "None"
  | PyStr s => s
  end.

(** Python numbers as far as the window arithmetic needs them. An [int] is
    unbounded. A float is given by the rational its double denotes (every
    finite double is one); which double an operation produces, and whether it
    raises instead, is decided by the interpreter, so the operations that
    produce floats are parameters of the code that uses them. *)
Inductive pynum :=
| PyInt (z : Z)
| PyFloat (q : Q).

(** The exceptions met in the two files. Those the binding raises for an
    argument it does not take carry no text: their wording is the binding's. *)
Inductive exn :=
| ValueError (msg : string)
| QtValueError (msg : string)
| TypeError
| OverflowError
| KeyError (key : pyval)
| IndexError (msg : string)
| AssertionError
| UnboundLocalError (name : string)
| ForeignError (msg : string).

Inductive result (A : Type) :=
| Ok (a : A)
| Err (e : exn).
Arguments Ok {A} a.
Arguments Err {A} e.

Definition bind {A B} (r : result A) (k : A -> result B) : result B :=
  match r with
  | Ok a => k a
  | Err e => Err e
  end.

(** What a method call leaves behind: the object's state, the debug messages
    it logged, and the exception it raised, if any. *)
Record run (S : Type) := Run {
  final : S;
  logged : list string;
  raised : option exn
}.
Arguments Run {S} final logged raised.
Arguments final {S} r.
Arguments logged {S} r.
Arguments raised {S} r.

Definition returns {S} (s : S) : run S := Run s [] None.
Definition raises {S} (e : exn) (s : S) : run S := Run s [] (Some e).

(** [s.endswith(c)] for a one-character suffix. *)
Fixpoint endswith (s : string) (c : ascii) : bool :=
  match s with
  | EmptyString => false
  | String a rest =>
      match rest with
      | EmptyString => Ascii.eqb a c
      | String _ _ => endswith rest c
      end
  end.

(** [s.rstrip(c)]: every trailing [c] goes, not only the last one. *)
Fixpoint rstrip (s : string) (c : ascii) : string :=
  match s with
  | EmptyString => EmptyString
  | String a rest =>
      match rstrip rest c with
      | EmptyString => if Ascii.eqb a c then EmptyString else String a EmptyString
      | String b r => String a (String b r)
      end
  end.

End Py.

(** ** The toolkit's geometry types *)

Module Qt.

(** Qt keeps coordinates in C [int]s: 32 bits, two's complement. *)
Definition in_c_int (z : Z) : bool :=
  ((-2147483648 <=? z) && (z <=? 2147483647))%bool.

(** What C [int] arithmetic leaves of a result that does not fit. *)
Definition wrap_int (z : Z) : Z :=
  (z + 2147483648) mod 4294967296 - 2147483648.

Record QPoint := mkPoint { px : Z; py : Z }.

(** A [QRect] stores its two corner pixels, both inclusive. *)
Record QRect := mkRect { x1 : Z; y1 : Z; x2 : Z; y2 : Z }.

(** [QRect(x, y, width, height)] *)
Definition rect_xywh (x y w h : Z) : QRect :=
  mkRect x y (wrap_int (x + w - 1)) (wrap_int (y + h - 1)).

(** [QRect(topleft, bottomright)] *)
Definition rect_of_corners (tl br : QPoint) : QRect :=
  mkRect (px tl) (py tl) (px br) (py br).

Definition topLeft (r : QRect) : QPoint := mkPoint (x1 r) (y1 r).
Definition topRight (r : QRect) : QPoint := mkPoint (x2 r) (y1 r).
Definition bottomRight (r : QRect) : QPoint := mkPoint (x2 r) (y2 r).
Definition rect_height (r : QRect) : Z := wrap_int (y2 r - y1 r + 1).
Definition rect_width (r : QRect) : Z := wrap_int (x2 r - x1 r + 1).

(** [p -= q], in C [int] arithmetic. *)
Definition point_sub (p q : QPoint) : QPoint :=
  mkPoint (wrap_int (px p - px q)) (wrap_int (py p - py q)).

End Qt.

(** ** mainwindow.py *)

Module MainWindow.
Import Py Qt.

(** The two configuration values the window reads. *)
Record Config := mkConfig {
  conf_completion_height : string;    (* str(config.get('completion', 'height')) *)
  conf_developer_extras : bool        (* config.get('webkit', 'developer-extras-enabled') *)
}.

(** The window and the child widgets whose state the methods read or write. *)
Record MainWindow := mkWindow {
  geometry : QRect;
  status_geometry : QRect;
  status_errors : list string;        (* texts given to status.disp_error, oldest first *)
  inspector_geometry : QRect;
  inspector_visible : bool;
  completion_geometry : QRect
}.

Definition height (w : MainWindow) : Z := rect_height (geometry w).
Definition status_height (w : MainWindow) : Z := rect_height (status_geometry w).
Definition inspector_height (w : MainWindow) : Z := rect_height (inspector_geometry w).

Definition setGeometry (r : QRect) (w : MainWindow) : MainWindow :=
  mkWindow r (status_geometry w) (status_errors w) (inspector_geometry w)
           (inspector_visible w) (completion_geometry w).

Definition completion_setGeometry (r : QRect) (w : MainWindow) : MainWindow :=
  mkWindow (geometry w) (status_geometry w) (status_errors w) (inspector_geometry w)
           (inspector_visible w) r.

Definition inspector_set_visible (b : bool) (w : MainWindow) : MainWindow :=
  mkWindow (geometry w) (status_geometry w) (status_errors w) (inspector_geometry w)
           b (completion_geometry w).

Definition status_disp_error (msg : string) (w : MainWindow) : MainWindow :=
  mkWindow (geometry w) (status_geometry w) (status_errors w ++ [msg])
           (inspector_geometry w) (inspector_visible w) (completion_geometry w).

(** What [restoreGeometry] can do with the decoded bytes. The source guards
    the call against a [KeyError]. *)
Inductive restored :=
| Restored (r : QRect)       (* returns True, the geometry is now [r] *)
| NotRestored                (* returns False *)
| RestoreKeyError (k : pyval).

(** What [b64decode(s, validate=True)] can do with the saved text. *)
Inductive decoding :=
| Decoded (b : list Byte.byte)
| InvalidBase64              (* raises binascii.Error *)
| DecodeRaised (e : exn).    (* raises something else, as the plain
                                ValueError for a text that is not ASCII *)

(** The interpreter and the binding under [resize_completion]: what they do
    is not decided by this repository, so the methods take them as given. *)
Record Runtime := mkRuntime {
  (* int(s) on a str: the integer, or what it raises *)
  py_int : string -> result Z;
  (* a / b on two ints: the float (as the rational its double denotes), or
     what it raises *)
  int_truediv : Z -> Z -> result Q;
  (* a - x for an int a and a float x, likewise *)
  int_sub_float : Z -> Q -> result Q;
  (* How the binding passes a Python float where Qt takes a C int: Some of
     the integer it converts it to, None where it refuses a float. Which of
     the two happens depends on the binding's release. *)
  float_as_int : Q -> option Z
}.

Section Toolkit.

Variable rt : Runtime.

(** [b64decode(s, validate=True)] *)
Variable b64decode : string -> decoding.

(** [QWidget.restoreGeometry] *)
Variable restoreGeometry : list Byte.byte -> restored.

(** An integer handed to Qt has to fit a C [int]; for one that does not the
    binding raises [OverflowError]. *)
Definition fit_c_int (z : Z) : result Z :=
  if in_c_int z then Ok z else Err OverflowError.

Definition c_int (n : pynum) : result Z :=
  match n with
  | PyInt z => fit_c_int z
  | PyFloat q =>
      match float_as_int rt q with
      | Some z => fit_c_int z
      | None => Err TypeError
      end
  end.

(** [QPoint(x, y)] called from Python *)
Definition QPoint_new (x y : pynum) : result QPoint :=
  bind (c_int x) (fun xi => bind (c_int y) (fun yi => Ok (mkPoint xi yi))).

Definition _set_default_geometry (w : MainWindow) : MainWindow :=
  setGeometry (rect_xywh 50 50 800 600) w.

(** [stateconf['geometry']['mainwindow']] *)
Definition saved_geometry (stateconf : gmap string (gmap string string)) : result string :=
  match stateconf !! "geometry" with
  | None => Err (KeyError (PyStr "geometry"))
  | Some sect =>
      match sect !! "mainwindow" with
      | None => Err (KeyError (PyStr "mainwindow"))
      | Some v => Ok v
      end
  end.

(** [MainWindow.__init__], from the widget as [super().__init__()] leaves it.
    The child widgets are created after the geometry is settled; of that part
    only [self.inspector.hide()] changes the state modelled here. *)
Definition __init__ (stateconf : gmap string (gmap string string))
    (fresh : MainWindow) : run MainWindow :=
  let children (w : MainWindow) := inspector_set_visible false w in
  match saved_geometry stateconf with
  | Err _ => returns (children (_set_default_geometry fresh))
  | Ok encoded =>
      match b64decode encoded with
      | InvalidBase64 => returns (children (_set_default_geometry fresh))
      | DecodeRaised (KeyError _) => returns (children (_set_default_geometry fresh))
      | DecodeRaised e =>
          (* not one of (KeyError, binascii.Error): the constructor ends here *)
          raises e fresh
      | Decoded geom =>
          match restoreGeometry geom with
          | Restored r => returns (children (setGeometry r fresh))
          | NotRestored => returns (children (_set_default_geometry fresh))
          | RestoreKeyError _ =>
              (* the handler sets the default, then [if not ok] reads a name
                 that was never bound *)
              raises (UnboundLocalError "ok") (_set_default_geometry fresh)
          end
      end
  end.

(** The [height] local of [resize_completion]. *)
Definition completion_height (cfg : Config) (w : MainWindow) : result pynum :=
  let confheight := conf_completion_height cfg in
  if endswith confheight "%" then
    bind (py_int rt (rstrip confheight "%")) (fun perc =>
    bind (int_truediv rt (height w * perc) 100) (fun q =>
    Ok (PyFloat q)))
  else
    bind (py_int rt confheight) (fun h => Ok (PyInt h)).

(** [self.height() - self.status.height() - height]: the two widget heights
    are ints, [height] is an int or a float. *)
Definition top_coordinate (w : MainWindow) (h : pynum) : result pynum :=
  match h with
  | PyInt n => Ok (PyInt (height w - status_height w - n))
  | PyFloat q =>
      bind (int_sub_float rt (height w - status_height w) q) (fun d => Ok (PyFloat d))
  end.

Definition resize_completion (cfg : Config) (w : MainWindow) : run MainWindow :=
  match completion_height cfg w with
  | Err e => raises e w
  | Ok h =>
      match bind (top_coordinate w h) (QPoint_new (PyInt 0)) with
      | Err e => raises e w
      | Ok topleft =>
          let bottomright := topRight (status_geometry w) in
          let up := mkPoint 0 (inspector_height w) in
          let topleft' :=
            if inspector_visible w then point_sub topleft up else topleft in
          let bottomright' :=
            if inspector_visible w then point_sub bottomright up else bottomright in
          returns (completion_setGeometry (rect_of_corners topleft' bottomright') w)
      end
  end.

Definition on_config_changed (cfg : Config) (section option : string)
    (w : MainWindow) : run MainWindow :=
  if (String.eqb section "completion" && String.eqb option "height")%bool
  then resize_completion cfg w
  else returns w.

Definition toggle_inspector (cfg : Config) (w : MainWindow) : run MainWindow :=
  if inspector_visible w then
    resize_completion cfg (inspector_set_visible false w)
  else
    if negb (conf_developer_extras cfg) then
      returns (status_disp_error
                 "Please enable developer-extras before using the webinspector!" w)
    else
      resize_completion cfg (inspector_set_visible true w).

(** [resizeEvent]: the base class handler does nothing to the state modelled
    here; by the time it runs the window already has its new geometry. *)
Definition resizeEvent (cfg : Config) (w : MainWindow) : run MainWindow :=
  resize_completion cfg w.

(** The height the specification describes for a configured string [conf]
    in a window [wh] pixels high: [wh * perc / 100] when [conf] ends with a
    percent sign, the integer otherwise. *)
Definition spec_completion_height (wh : Z) (conf : string) (h : pynum) : Prop :=
  (endswith conf "%" = true /\
   exists perc q, py_int rt (rstrip conf "%") = Ok perc /\
                  int_truediv rt (wh * perc) 100 = Ok q /\
                  h = PyFloat q)
  \/
  (endswith conf "%" = false /\ exists n, py_int rt conf = Ok n /\ h = PyInt n).

(** The top coordinate the specification describes,
    [window height - status bar height - completion height]. *)
Definition spec_top (wh sh : Z) (h y : pynum) : Prop :=
  (exists n, h = PyInt n /\ y = PyInt (wh - sh - n))
  \/
  (exists q d, h = PyFloat q /\ int_sub_float rt (wh - sh) q = Ok d /\ y = PyFloat d).

End Toolkit.

(** [int(x)] on a float, which is how the binding releases the code was
    written against pass a float: the value truncated towards zero. *)
Definition truncating (q : Q) : option Z :=
  Some (Z.quot (Qnum q) (Zpos (Qden q))).

(** A binding release that takes no float where Qt wants an [int]. *)
Definition refusing (q : Q) : option Z := None.

End MainWindow.

(** ** basecompletion.BaseCompletionModel *)

Module BaseCompletion.
Import Py.

(** Modelled from the spec: [qutebrowser/models/basecompletion.py] is not part
    of the excerpt. The specification describes a completion model as a list
    feeding the popup, made of display rows (name, description, value); the
    subclasses group the rows into named categories, so a model is the list of
    its categories in creation order, each with its rows in creation order. *)
Record Row := mkRow {
  row_name : pyval;
  row_desc : pyval;
  row_misc : pyval
}.

Record Category := mkCat {
  cat_name : string;
  cat_sort : option Z;
  cat_rows : list Row
}.

(** An item is one cell of one row: the handle [new_item] gives back. *)
Record Item := mkItem {
  item_cat : nat;
  item_row : nat;
  item_col : nat
}.

(** Modelled from the spec: [new_category(name, sort=None)] opens an empty
    category after the existing ones and returns its handle. *)
Definition new_category (name : string) (sort : option Z)
    (m : list Category) : nat * list Category :=
  (List.length m, m ++ [mkCat name sort []]).

Definition add_row (r : Row) (c : Category) : Category :=
  mkCat (cat_name c) (cat_sort c) (cat_rows c ++ [r]).

(** Modelled from the spec: [new_item(cat, name, desc='', misc=None)] appends
    one display row to the category and returns the items of its three
    cells. *)
Definition new_item (cat : nat) (name desc misc : pyval)
    (m : list Category) : (Item * Item * Item) * list Category :=
  let r := from_option (fun c => List.length (cat_rows c)) O (m !! cat) in
  ((mkItem cat r 0, mkItem cat r 1, mkItem cat r 2),
   alter (add_row (mkRow name desc misc)) cat m).

Definition cell (r : Row) (col : nat) : option pyval :=
  match col with
  | O => Some (row_name r)
  | 1%nat => Some (row_desc r)
  | 2%nat => Some (row_misc r)
  | _ => None
  end.

(** What the view displays for an item, if the item is in the model. *)
Definition displayed (m : list Category) (it : Item) : option pyval :=
  c ← m !! item_cat it; r ← cat_rows c !! item_row it; cell r (item_col it).

(** [item.index()]: [None] stands for an invalid [QModelIndex], which is what
    an item outside the model has. *)
Definition index (m : list Category) (it : Item) : option Item :=
  match displayed m it with
  | Some _ => Some it
  | None => None
  end.

(** Modelled from the spec: [qtutils.ensure_valid] is not part of the excerpt;
    it turns an invalid toolkit object into an error. *)
Definition ensure_valid (idx : option Item) : result Item :=
  match idx with
  | Some i => Ok i
  | None => Err (QtValueError "QModelIndex is not valid")
  end.

Definition rows_of (m : list Category) (cat : nat) : list Row :=
  from_option cat_rows [] (m !! cat).

End BaseCompletion.

(** ** completion.py *)

Module Completion.
Import Py BaseCompletion.

(** [typ.complete()]: [None], or the allowed values with their descriptions. *)
Definition completions : Type := option (list (string * string)).

(** One entry of [configdata.DATA]. A section either gives each option a type
    of its own or has one [valtype] for all of them, and it may have no
    [descriptions] attribute at all. *)
Record SectData := mkSect {
  sect_items : list (string * completions);       (* option name, its typ.complete() *)
  sect_descriptions : option (gmap string string);
  sect_valtype : option completions               (* None: no valtype attribute *)
}.

Definition sect_keys (sd : SectData) : list string := map fst (sect_items sd).

(** What the models read from outside: the configuration, the settings
    metadata, the command registry, the debug flag and the quickmarks. *)
Record Command := mkCommand {
  cmd_name : string;
  cmd_desc : string;
  cmd_hide : bool;
  cmd_debug : bool
}.

Record World := mkWorld {
  config_get : string -> pyval -> result pyval;   (* config.get(section, option, raw=True) *)
  config_aliases : list (string * string);        (* config.section('aliases').items() *)
  DATA : list (string * SectData);                (* configdata.DATA.items() *)
  cmd_dict : gmap string nat;                     (* name -> the command object registered under it *)
  cmd_object : nat -> Command;                    (* the object at an address *)
  args_debug : bool;                              (* objreg.get('args').debug *)
  marks : list (string * string)                  (* quickmark-manager.marks.items(): name, url *)
}.

(** [d[key]] on an insertion-ordered dictionary given by its items. *)
Fixpoint getitem {V} (d : list (string * V)) (key : string) : result V :=
  match d with
  | [] => Err (KeyError (PyStr key))
  | (k, v) :: rest => if String.eqb k key then Ok v else getitem rest key
  end.

Fixpoint foldM {A S} (f : S -> A -> result S) (l : list A) (s : S) : result S :=
  match l with
  | [] => Ok s
  | a :: rest => bind (f s a) (foldM f rest)
  end.

(** The two-character text [repr('')] shown for an empty value. *)
Definition empty_literal : string :=
  String (ascii_of_nat 34) (String (ascii_of_nat 34) EmptyString).

Definition byte_is (a : ascii) (n : nat) : bool := Nat.eqb (nat_of_ascii a) n.

(** The characters [str.splitlines] breaks at: LF, VT, FF, CR, FS, GS, RS, and
    in their UTF-8 encoding NEL (C2 85), LS and PS (E2 80 A8, E2 80 A9). *)
Definition at_line_break (s : string) : bool :=
  match s with
  | EmptyString => false
  | String a rest =>
      let n := nat_of_ascii a in
      ((Nat.leb 10 n && Nat.leb n 13) || (Nat.leb 28 n && Nat.leb n 30)
       || match rest with
          | String b rest' =>
              (byte_is a 194 && byte_is b 133)
              || match rest' with
                 | String c _ =>
                     byte_is a 226 && byte_is b 128 && (byte_is c 168 || byte_is c 169)
                 | EmptyString => false
                 end
          | EmptyString => false
          end)%bool
  end.

Fixpoint line_prefix (s : string) : string :=
  match s with
  | EmptyString => EmptyString
  | String a rest => if at_line_break s then EmptyString else String a (line_prefix rest)
  end.

(** [s.splitlines()[0]]: the empty string has no lines at all. *)
Definition first_line (s : string) : result string :=
  match s with
  | EmptyString => Err (IndexError "list index out of range")
  | String _ _ => Ok (line_prefix s)
  end.

(** The [try: desc = sectdata.descriptions[name] ... else: ...] block shared by
    [SettingOptionCompletionModel.__init__] and
    [HelpCompletionModel._init_settings]. *)
Definition option_description (sd : SectData) (name : string) : result string :=
  match sect_descriptions sd with
  | None => Ok ""                       (* AttributeError *)
  | Some ds =>
      match ds !! name with
      | None => Ok ""                   (* KeyError *)
      | Some desc => first_line desc
      end
  end.

(** The loop [for (name, desc) in l: self.new_item(cat, name, desc)]. *)
Definition add_entry (cat : nat) (m : list Category) (nd : string * string)
    : list Category :=
  snd (new_item cat (PyStr (fst nd)) (PyStr (snd nd)) PyNone m).

Definition new_items (cat : nat) (l : list (string * string)) (m : list Category)
    : list Category :=
  fold_left (add_entry cat) l m.

(** *** SettingOptionCompletionModel *)

Record SettingOptionCompletionModel := mkSettingOption {
  so_model : list Category;
  _misc_items : gmap string Item
}.

Definition so_add (w : World) (section : string) (cat : nat) (sd : SectData)
    (self : SettingOptionCompletionModel) (name : string)
    : result SettingOptionCompletionModel :=
  bind (option_description sd name) (fun desc =>
  bind (config_get w section (PyStr name)) (fun value =>
  let '((_, _, miscitem), m) :=
    new_item cat (PyStr name) (PyStr desc) value (so_model self) in
  Ok (mkSettingOption m (<[name := miscitem]> (_misc_items self))))).

(** [SettingOptionCompletionModel(section)]. The handler registration
    [config.on_change(self.update_misc_column, section)] lives in the
    configuration object and is not part of the model's state. *)
Definition SettingOption_init (w : World) (section : string)
    : result SettingOptionCompletionModel :=
  let '(cat, m) := new_category section None [] in
  bind (getitem (DATA w) section) (fun sectdata =>
  foldM (so_add w section cat sectdata) (sect_keys sectdata)
        (mkSettingOption m ∅)).

(** *** SettingValueCompletionModel *)

Record SettingValueCompletionModel := mkSettingValue {
  sv_model : list Category;
  cur_item : Item
}.

(** [if not value: value = '""'] *)
Definition shown_value (value : pyval) : pyval :=
  if truthy value then value else PyStr empty_literal.

(** [SettingValueCompletionModel(section, option=None)] *)
Definition SettingValue_init (w : World) (section : string) (option : pyval)
    : result SettingValueCompletionModel :=
  let '(cur_cat, m0) := new_category "Current" (Some 0) [] in
  bind (config_get w section option) (fun value =>
  let value := shown_value value in
  let '((cur, _, _), m1) := new_item cur_cat value (PyStr "Current value") PyNone m0 in
  bind (getitem (DATA w) section) (fun sectdata =>
  bind (match sect_valtype sectdata with
        | Some shared => Ok shared
        | None =>
            match option with
            | PyNone =>
                Err (ValueError ("option may only be None for ValueList sections, but "
                                 +:+ section +:+ " is not!"))
            | PyStr o => getitem (sect_items sectdata) o
            end
        end) (fun vals =>
  match vals with
  | None => Ok (mkSettingValue m1 cur)
  | Some allowed =>
      let '(cat, m2) := new_category "Allowed" (Some 1) m1 in
      Ok (mkSettingValue (new_items cat allowed m2) cur)
  end))).

(** *** CommandCompletionModel and HelpCompletionModel *)

Definition str_leb (a b : string) : bool :=
  match String_as_OT.compare a b with
  | Gt => false
  | _ => true
  end.

(** [p <= q] on pairs of strings, as Python orders tuples. *)
Definition tuple_leb (p q : string * string) : bool :=
  match String_as_OT.compare (fst p) (fst q) with
  | Lt => true
  | Gt => false
  | Eq => str_leb (snd p) (snd q)
  end.

Fixpoint insert_sorted (x : string * string) (l : list (string * string))
    : list (string * string) :=
  match l with
  | [] => [x]
  | y :: rest => if tuple_leb x y then x :: l else y :: insert_sorted x rest
  end.

(** [sorted(l)]. The order on tuples of strings is total and only equal tuples
    tie, so every sorting algorithm returns this list. *)
Definition sorted (l : list (string * string)) : list (string * string) :=
  fold_right insert_sorted [] l.

(** [set(cmdutils.cmd_dict.values())], in the order the loop visits it. *)
Definition command_objects (w : World) : list Command :=
  map (cmd_object w) (elements (map_img (cmd_dict w) : gset nat)).

(** The [if obj.hide or (obj.debug and not debug): pass] test, negated. *)
Definition listed (w : World) (c : Command) : bool :=
  negb (cmd_hide c || (cmd_debug c && negb (args_debug w))).

(** [assert cmdutils.cmd_dict] *)
Definition assert_cmd_dict (w : World) : result unit :=
  if decide (cmd_dict w = ∅) then Err AssertionError else Ok tt.

Definition command_cmdlist (w : World) : list (string * string) :=
  map (fun c => (cmd_name c, cmd_desc c)) (filter (fun c => listed w c = true) (command_objects w))
  ++ map (fun a => (fst a, "Alias for '" +:+ snd a +:+ "'")) (config_aliases w).

Definition Command_init (w : World) : result (list Category) :=
  bind (assert_cmd_dict w) (fun _ =>
  let cmdlist := command_cmdlist w in
  let '(cat, m) := new_category "Commands" None [] in
  Ok (new_items cat (sorted cmdlist) m)).

Definition help_cmdlist (w : World) : list (string * string) :=
  map (fun c => (":" +:+ cmd_name c, cmd_desc c))
      (filter (fun c => listed w c = true) (command_objects w)).

Definition _init_commands (w : World) (m : list Category) : result (list Category) :=
  bind (assert_cmd_dict w) (fun _ =>
  let cmdlist := help_cmdlist w in
  let '(cat, m1) := new_category "Commands" None m in
  Ok (new_items cat (sorted cmdlist) m1)).

Definition help_add_option (cat : nat) (sectname : string) (sectdata : SectData)
    (m : list Category) (optname : string) : result (list Category) :=
  bind (option_description sectdata optname) (fun desc =>
  Ok (snd (new_item cat (PyStr (sectname +:+ "->" +:+ optname)) (PyStr desc) PyNone m))).

Definition _init_settings (w : World) (m : list Category) : result (list Category) :=
  let '(cat, m1) := new_category "Settings" None m in
  foldM (fun m' (sect : string * SectData) =>
           foldM (help_add_option cat (fst sect) (snd sect)) (sect_keys (snd sect)) m')
        (DATA w) m1.

Definition Help_init (w : World) : result (list Category) :=
  bind (_init_commands w []) (_init_settings w).

(** *** QuickmarkCompletionModel *)

Definition _on_quickmarks_changed (w : World) (m : list Category) : list Category :=
  let qmlist := map (fun qm : string * string => let '(qm_name, qm_url) := qm in (qm_url, qm_name))
                    (marks w) in
  let '(cat, m1) := new_category "Quickmarks" None m in
  new_items cat qmlist m1.

Definition Quickmark_init (w : World) : list Category :=
  _on_quickmarks_changed w [].

(** *** The handlers run when the configuration changes *)

Section SetData.

(** [QAbstractItemModel.setData(index, value, Qt.DisplayRole)] on a valid
    index: whether the toolkit accepted the value, and the model afterwards. *)
Variable setData : list Category -> Item -> pyval -> bool * list Category.

Definition setting_failed (section : string) (option val : pyval) : exn :=
  ValueError ("Setting data failed! (section: " +:+ section +:+ ", option: "
              +:+ py_str option +:+ ", value: " +:+ py_str val +:+ ")").

Definition update_misc_column (w : World) (section option : string)
    (self : SettingOptionCompletionModel) : run SettingOptionCompletionModel :=
  match _misc_items self !! option with
  | None =>
      (* changed before init *)
      Run self ["Couldn't get item " +:+ section +:+ "." +:+ option +:+ " from model!"] None
  | Some item =>
      match config_get w section (PyStr option) with
      | Err e => raises e self
      | Ok val =>
          match ensure_valid (index (so_model self) item) with
          | Err e => raises e self
          | Ok idx =>
              let '(ok, m) := setData (so_model self) idx val in
              let self' := mkSettingOption m (_misc_items self) in
              if ok then returns self'
              else raises (setting_failed section (PyStr option) val) self'
          end
      end
  end.

Definition update_current_value (w : World) (section : string) (option : pyval)
    (self : SettingValueCompletionModel) : run SettingValueCompletionModel :=
  match config_get w section option with
  | Err e => raises e self
  | Ok value =>
      let value := shown_value value in
      match ensure_valid (index (sv_model self) (cur_item self)) with
      | Err e => raises e self
      | Ok idx =>
          let '(ok, m) := setData (sv_model self) idx value in
          let self' := mkSettingValue m (cur_item self) in
          if ok then returns self'
          else raises (setting_failed section option value) self'
      end
  end.

End SetData.

(** Two toolkit behaviours to run the handlers with: the item model's own
    [setData], which stores the value in the addressed cell, and the base
    class default, which refuses every write. *)
Definition set_cell (col : nat) (v : pyval) (r : Row) : Row :=
  match col with
  | O => mkRow v (row_desc r) (row_misc r)
  | 1%nat => mkRow (row_name r) v (row_misc r)
  | 2%nat => mkRow (row_name r) (row_desc r) v
  | _ => r
  end.

Definition set_row (row col : nat) (v : pyval) (c : Category) : Category :=
  mkCat (cat_name c) (cat_sort c) (alter (set_cell col v) row (cat_rows c)).

Definition item_setData (m : list Category) (idx : Item) (v : pyval)
    : bool * list Category :=
  match displayed m idx with
  | Some _ => (true, alter (set_row (item_row idx) (item_col idx) v) (item_cat idx) m)
  | None => (false, m)
  end.

Definition readonly_setData (m : list Category) (idx : Item) (v : pyval)
    : bool * list Category :=
  (false, m).

(** *** SettingSectionCompletionModel *)

Section Strip.

(** [str.strip()]: the text without the blanks at either end. *)
Variable py_strip : string -> string.



End Strip.

End Completion.

(** * Properties of the main window *)

Module MainWindowFacts.
Import Py Qt MainWindow.

Lemma wrap_int_fits z : in_c_int z = true -> wrap_int z = z.
Proof.
  unfold in_c_int, wrap_int. intros H.
  apply andb_true_iff in H as [Hlo Hhi].
  apply Z.leb_le in Hlo. apply Z.leb_le in Hhi.
  rewrite Z.mod_small by lia. lia.
Qed.

Lemma fit_c_int_Ok z z' : fit_c_int z = Ok z' -> z' = z /\ in_c_int z = true.
Proof.
  unfold fit_c_int. destruct (in_c_int z); [|discriminate].
  intros Heq. injection Heq as <-. auto.
Qed.

Section Toolkit.

Variable rt : Runtime.
Variable b64decode : string -> decoding.
Variable restoreGeometry : list Byte.byte -> restored.

Lemma completion_height_spec cfg w h :
  spec_completion_height rt (height w) (conf_completion_height cfg) h ->
  completion_height rt cfg w = Ok h.
Proof.
  unfold spec_completion_height, completion_height.
  intros [[Hend [perc [q [Hperc [Hq ->]]]]] | [Hend [n [Hn ->]]]]; rewrite Hend.
  - rewrite Hperc. cbn [bind]. rewrite Hq. reflexivity.
  - rewrite Hn. reflexivity.
Qed.

Lemma top_coordinate_spec w h y :
  spec_top rt (height w) (status_height w) h y -> top_coordinate rt w h = Ok y.
Proof.
  unfold spec_top, top_coordinate.
  intros [[n [-> ->]] | [q [d [-> [Hd ->]]]]]; [reflexivity|].
  rewrite Hd. reflexivity.
Qed.

Lemma c_int_fits y z : c_int rt y = Ok z -> in_c_int z = true.
Proof.
  unfold c_int. destruct y as [n|q].
  - intros H. apply fit_c_int_Ok in H as [-> H]. exact H.
  - destruct (float_as_int rt q) as [n|]; [|discriminate].
    intros H. apply fit_c_int_Ok in H as [-> H]. exact H.
Qed.

Lemma resize_completion_inspector cfg w :
  inspector_visible (final (resize_completion rt cfg w)) = inspector_visible w.
Proof.
  unfold resize_completion.
  destruct (completion_height rt cfg w) as [h|e]; [|reflexivity].
  destruct (bind _ _) as [p|e]; reflexivity.
Qed.

Lemma on_config_changed_other cfg section option w :
  ~ (section = "completion" /\ option = "height") ->
  on_config_changed rt cfg section option w = returns w.
Proof.
  intros Hne. unfold on_config_changed.
  destruct (String.eqb_spec section "completion") as [->|Hs]; simpl; [|reflexivity].
  destruct (String.eqb_spec option "height") as [->|Ho]; [|reflexivity].
  exfalso. apply Hne. split; reflexivity.
Qed.

(** A corner moved up by the inspector's height exactly when the inspector
    is visible, as Qt subtracts points. *)
Definition shifted_up (w : MainWindow) (p : QPoint) : QPoint :=
  if inspector_visible w then point_sub p (mkPoint 0 (inspector_height w)) else p.

Lemma completion_height_inv cfg w h :
  completion_height rt cfg w = Ok h ->
  spec_completion_height rt (height w) (conf_completion_height cfg) h.
Proof.
  unfold spec_completion_height, completion_height.
  destruct (endswith (conf_completion_height cfg) "%").
  - destruct (py_int rt (rstrip (conf_completion_height cfg) "%")) as [perc|e];
      [|discriminate].
    cbn [bind].
    destruct (int_truediv rt (height w * perc) 100) as [q|e] eqn:Hq; [|discriminate].
    cbn [bind]. intros Heq. injection Heq as <-. left. eauto 6.
  - destruct (py_int rt (conf_completion_height cfg)) as [n|e]; [|discriminate].
    cbn [bind]. intros Heq. injection Heq as <-. right. eauto.
Qed.

Lemma top_coordinate_inv w h y :
  top_coordinate rt w h = Ok y -> spec_top rt (height w) (status_height w) h y.
Proof.
  unfold spec_top, top_coordinate. destruct h as [n|q].
  - intros Heq. injection Heq as <-. left. eauto.
  - destruct (int_sub_float rt (height w - status_height w) q) as [d|e] eqn:Hd;
      [|discriminate].
    cbn [bind]. intros Heq. injection Heq as <-. right. eauto 6.
Qed.

(** The calls the amended C1 is about: the configured height reads as the
    number [h], Python computes the top coordinate [y] from it, and the
    binding passes [y] to Qt as the C int [ytop]. *)
Definition placeable (cfg : Config) (w : MainWindow) (h y : pynum) (ytop : Z) : Prop :=
  spec_completion_height rt (height w) (conf_completion_height cfg) h
  /\ spec_top rt (height w) (status_height w) h y
  /\ c_int rt y = Ok ytop.

(** C1, as the code has it. In every call in which the configured completion
    height reads as a number [h] (the float [window height * perc / 100] for
    a string ending in a percent sign, the integer otherwise), Python computes
    [window height - status bar height - h] as [y], and the binding passes
    [y] to Qt as the C int [ytop], [resize_completion] sets the completion
    widget's geometry to the rectangle from [(0, ytop)] to the top-right
    corner of the status bar, both corners moved up by the inspector's height
    exactly when the inspector is visible. [resizeEvent] and
    [on_config_changed] for completion/height do the same; [on_config_changed]
    for any other setting leaves the window alone. With an integer height
    [ytop] is exactly the difference, and where the moved coordinate fits a C
    int it is exactly [ytop] less the inspector's height. In every other call
    the three methods raise and leave the window as it was. *)
Theorem resize_completion_geometry cfg w :
  (forall h y ytop,
     placeable cfg w h y ytop ->
     let target :=
       rect_of_corners (shifted_up w (mkPoint 0 ytop))
                       (shifted_up w (topRight (status_geometry w))) in
     let up := if inspector_visible w then inspector_height w else 0 in
     resize_completion rt cfg w = returns (completion_setGeometry target w)
     /\ resizeEvent rt cfg w = returns (completion_setGeometry target w)
     /\ on_config_changed rt cfg "completion" "height" w
        = returns (completion_setGeometry target w)
     /\ (forall n, h = PyInt n -> ytop = height w - status_height w - n)
     /\ in_c_int ytop = true
     /\ px (shifted_up w (mkPoint 0 ytop)) = 0
     /\ (in_c_int (ytop - up) = true ->
         py (shifted_up w (mkPoint 0 ytop)) = ytop - up))
  /\ (forall section option,
        ~ (section = "completion" /\ option = "height") ->
        on_config_changed rt cfg section option w = returns w)
  /\ ((forall h y ytop, ~ placeable cfg w h y ytop) ->
      exists e,
        resize_completion rt cfg w = raises e w
        /\ resizeEvent rt cfg w = raises e w
        /\ on_config_changed rt cfg "completion" "height" w = raises e w).
Proof.
  split; [|split].
  - intros h y ytop [Hspec [Htop Hy]] target up.
    assert (Hresize : resize_completion rt cfg w
                      = returns (completion_setGeometry target w)).
    { unfold resize_completion.
      rewrite (completion_height_spec _ _ _ Hspec), (top_coordinate_spec _ _ _ Htop).
      cbn [bind]. unfold QPoint_new.
      change (c_int rt (PyInt 0)) with (Ok (A := Z) 0). cbn [bind].
      rewrite Hy. cbn [bind]. reflexivity. }
    split; [exact Hresize|]. split; [exact Hresize|]. split; [exact Hresize|].
    split.
    { intros n ->. destruct Htop as [[n' [Hn ->]] | [q [d [Hq _]]]]; [|discriminate].
      injection Hn as <-. cbn [c_int] in Hy. apply fit_c_int_Ok in Hy as [-> _].
      reflexivity. }
    split; [exact (c_int_fits _ _ Hy)|].
    subst up. unfold shifted_up.
    destruct (inspector_visible w); cbn [point_sub px py].
    + split; [reflexivity|]. intros Hfit. apply wrap_int_fits, Hfit.
    + split; [reflexivity|]. intros _. lia.
  - intros section option. apply on_config_changed_other.
  - intros Hnone.
    assert (Hraise : exists e, resize_completion rt cfg w = raises e w).
    { unfold resize_completion.
      destruct (completion_height rt cfg w) as [h|e] eqn:Hh; [|eauto].
      destruct (top_coordinate rt w h) as [y|e] eqn:Hy; [|cbn [bind]; eauto].
      cbn [bind]. unfold QPoint_new.
      change (c_int rt (PyInt 0)) with (Ok (A := Z) 0). cbn [bind].
      destruct (c_int rt y) as [ytop|e] eqn:Hc; [|cbn [bind]; eauto].
      destruct (Hnone h y ytop).
      split; [exact (completion_height_inv _ _ _ Hh)|].
      split; [exact (top_coordinate_inv _ _ _ Hy)|exact Hc]. }
    destruct Hraise as [e He]. exists e. repeat split; exact He.
Qed.

(** C3, as the code has it. An invocation hides a visible inspector; it shows
    a hidden one only when developer-extras is enabled, and in these two cases
    the completion geometry is recomputed on the window with the inspector
    toggled. With developer-extras disabled a hidden inspector stays hidden:
    the status bar shows an error and nothing else changes. *)
Theorem toggle_inspector_guarded cfg w :
  let r := toggle_inspector rt cfg w in
  inspector_visible (final r)
    = (if inspector_visible w then false else conf_developer_extras cfg)
  /\ r = (if (inspector_visible w || conf_developer_extras cfg)%bool
          then resize_completion rt cfg
                 (inspector_set_visible (negb (inspector_visible w)) w)
          else returns (status_disp_error
                 "Please enable developer-extras before using the webinspector!" w)).
Proof.
  unfold toggle_inspector.
  destruct (inspector_visible w) eqn:Hvis; cbn [negb orb].
  - split; [|reflexivity]. apply resize_completion_inspector.
  - destruct (conf_developer_extras cfg) eqn:Hdev; cbn [negb].
    + split; [|reflexivity]. apply resize_completion_inspector.
    + split; [|reflexivity]. cbn. exact Hvis.
Qed.




End Toolkit.

(** ** Runtimes to run the methods with

    They decide only what they are sure of: where CPython's answer depends on
    something they do not model they give a [ForeignError], which stands for
    an outcome left open, and no example below goes there. *)

Definition is_blank (a : ascii) : bool :=
  let n := nat_of_ascii a in
  (Nat.eqb n 32 || (Nat.leb 9 n && Nat.leb n 13) || (Nat.leb 28 n && Nat.leb n 31))%bool.

Fixpoint lstrip_blank (s : string) : string :=
  match s with
  | EmptyString => EmptyString
  | String a rest => if is_blank a then lstrip_blank rest else s
  end.

Fixpoint rstrip_blank (s : string) : string :=
  match s with
  | EmptyString => EmptyString
  | String a rest =>
      match rstrip_blank rest with
      | EmptyString => if is_blank a then EmptyString else String a EmptyString
      | String b r => String a (String b r)
      end
  end.

Definition digit_of (a : ascii) : option Z :=
  let n := nat_of_ascii a in
  if (Nat.leb 48 n && Nat.leb n 57)%bool then Some (Z.of_nat n - 48) else None.

Fixpoint digits (s : string) (acc : Z) : option Z :=
  match s with
  | EmptyString => Some acc
  | String a rest =>
      match digit_of a with
      | Some d => digits rest (10 * acc + d)
      | None => None
      end
  end.

Definition unsigned_literal (s : string) : option Z :=
  match s with
  | EmptyString => None
  | String _ _ => digits s 0
  end.

(** Printable ASCII other than the apostrophe, the backslash and the
    underscore: [repr] puts such a text between apostrophes unchanged. *)
Fixpoint plain (s : string) : bool :=
  match s with
  | EmptyString => true
  | String a rest =>
      let n := nat_of_ascii a in
      (Nat.leb 32 n && Nat.leb n 126 && negb (Nat.eqb n 39) && negb (Nat.eqb n 92)
       && negb (Nat.eqb n 95) && plain rest)%bool
  end.

(** [int(s)] for a short text of plain ASCII: blanks around an optionally
    signed run of digits; the message of the [ValueError] quotes [repr(s)].
    Longer texts (the message shortens them) and texts with other characters
    (digit grouping, digits and blanks outside ASCII, characters [repr] would
    escape) are left open. *)
Definition ascii_int (s : string) : result Z :=
  if (plain s && Nat.leb (String.length s) 100)%bool then
    let t := rstrip_blank (lstrip_blank s) in
    let parsed :=
      match t with
      | String "-" r => Z.opp <$> unsigned_literal r
      | String "+" r => unsigned_literal r
      | _ => unsigned_literal t
      end in
    match parsed with
    | Some z => Ok z
    | None => Err (ValueError ("invalid literal for int() with base 10: '" +:+ s +:+ "'"))
    end
  else Err (ForeignError "int(): a text this runtime does not read").

(** A rational that a double holds exactly: in lowest terms the denominator
    is a power of two and both parts are below 2^53. *)
Definition exact_double (q : Q) : bool :=
  let n := Qnum (Qred q) in
  let d := Zpos (Qden (Qred q)) in
  ((Z.abs n <? 2 ^ 53) && (d <? 2 ^ 53) && (2 ^ Z.log2 d =? d))%bool.

(** [a / b] where the quotient is exactly a double: true division is
    correctly rounded, so that double is the result. *)
Definition exact_truediv (a b : Z) : result Q :=
  if (negb (b =? 0) && exact_double (inject_Z a / inject_Z b))%bool
  then Ok (Qred (inject_Z a / inject_Z b))
  else Err (ForeignError "a / b: a quotient this runtime does not round").

(** [a - x] where [a] and the difference are exactly doubles. *)
Definition exact_sub (a : Z) (x : Q) : result Q :=
  if ((Z.abs a <? 2 ^ 53) && exact_double (inject_Z a - x))%bool
  then Ok (Qred (inject_Z a - x))
  else Err (ForeignError "a - x: a difference this runtime does not round").

(** The runtime the code was written against, and one whose binding takes
    no float for an [int]. *)
Definition old_runtime : Runtime := mkRuntime ascii_int exact_truediv exact_sub truncating.
Definition new_runtime : Runtime := mkRuntime ascii_int exact_truediv exact_sub refusing.

Definition sample_window : MainWindow :=
  mkWindow (rect_xywh 50 50 800 600) (rect_xywh 0 580 800 20) []
           (rect_xywh 0 380 800 200) true (rect_xywh 0 0 0 0).

(** The same window, one pixel row higher. *)
Definition taller_window : MainWindow :=
  mkWindow (rect_xywh 50 50 800 601) (rect_xywh 0 581 800 20) []
           (rect_xywh 0 381 800 200) true (rect_xywh 0 0 0 0).

Lemma resize_completion_geometry_witness :
  resize_completion old_runtime (mkConfig "50%" true) taller_window
  = returns (completion_setGeometry (mkRect 0 80 799 381) taller_window).
Proof.
  refine (proj1 (proj1 (resize_completion_geometry old_runtime (mkConfig "50%" true)
                          taller_window)
                   (PyFloat (601 # 2)) (PyFloat (561 # 2)) 280 _)).
  split; [|split].
  - left. split; [reflexivity|]. exists 50, (601 # 2). repeat split; reflexivity.
  - right. exists (601 # 2), (561 # 2). repeat split; reflexivity.
  - reflexivity.
Defined.

(** C1, as the specification words it, fails: not every call sets the
    geometry. A pixel count too large for a C int makes [QPoint] raise
    [OverflowError], and with a binding that takes no float for an [int] the
    percentage raises [TypeError]; either way the completion widget keeps the
    geometry it had. *)
Lemma resize_completion_can_raise :
  resize_completion old_runtime (mkConfig "99999999999" true) sample_window
  = raises OverflowError sample_window
  /\ resize_completion new_runtime (mkConfig "50%" true) sample_window
     = raises TypeError sample_window.
Proof. split; vm_compute; reflexivity. Qed.

Example resize_with_pixels_inspector_hidden :
  resize_completion old_runtime (mkConfig "120" true)
    (inspector_set_visible false sample_window)
  = returns (completion_setGeometry (mkRect 0 460 799 580)
               (inspector_set_visible false sample_window)).
Proof. reflexivity. Qed.

Example resize_strips_every_percent_sign :
  completion_height old_runtime (mkConfig "50%%" true) sample_window
  = Ok (PyFloat (300 # 1)).
Proof. reflexivity. Qed.

Example resize_unreadable_height :
  raised (resize_completion old_runtime (mkConfig "tall" true) sample_window)
  = Some (ValueError "invalid literal for int() with base 10: 'tall'").
Proof. reflexivity. Qed.

Example toggle_shows_when_enabled :
  inspector_visible
    (final (toggle_inspector old_runtime (mkConfig "120" true)
              (inspector_set_visible false sample_window)))
  = true.
Proof. reflexivity. Qed.

(** C3, as the specification words it, fails: with developer-extras disabled
    a hidden inspector is not shown. *)
Lemma toggle_inspector_not_always_toggles :
  ~ (forall cfg w,
       inspector_visible (final (toggle_inspector old_runtime cfg w))
       = negb (inspector_visible w)).
Proof.
  intros Hclaim.
  specialize (Hclaim (mkConfig "120" false) (inspector_set_visible false sample_window)).
  vm_compute in Hclaim. discriminate.
Qed.

End MainWindowFacts.

(** * Properties of the completion models *)

Module CompletionFacts.
Import Py BaseCompletion Completion.

(** ** The order [sorted] uses *)

Definition str_le (a b : string) : Prop := a = b \/ String_as_OT.lt a b.

Definition tuple_le (p q : string * string) : Prop :=
  String_as_OT.lt (fst p) (fst q) \/ (fst p = fst q /\ str_le (snd p) (snd q)).

Lemma lt_irrefl a : ~ String_as_OT.lt a a.
Proof. apply (StrictOrder_Irreflexive (R := String_as_OT.lt)). Qed.

Lemma lt_trans a b c : String_as_OT.lt a b -> String_as_OT.lt b c -> String_as_OT.lt a c.
Proof. apply (StrictOrder_Transitive (R := String_as_OT.lt)). Qed.

Lemma str_leb_le a b : str_leb a b = true <-> str_le a b.
Proof.
  unfold str_leb, str_le.
  destruct (String_as_OT.compare_spec a b) as [Heq|Hlt|Hgt].
  - split; [now left|reflexivity].
  - split; [now right|reflexivity].
  - split; [discriminate|].
    intros [->|Hlt]; exfalso.
    + exact (lt_irrefl _ Hgt).
    + exact (lt_irrefl _ (lt_trans _ _ _ Hlt Hgt)).
Qed.

Lemma tuple_leb_le p q : tuple_leb p q = true <-> tuple_le p q.
Proof.
  unfold tuple_leb, tuple_le.
  destruct (String_as_OT.compare_spec (fst p) (fst q)) as [Heq|Hlt|Hgt].
  - rewrite str_leb_le. split.
    + intros H. right. split; assumption.
    + intros [Hlt|[_ H]]; [|exact H].
      rewrite Heq in Hlt. destruct (lt_irrefl _ Hlt).
  - split; [now left|reflexivity].
  - split; [discriminate|].
    intros [Hlt|[Heq _]]; exfalso.
    + exact (lt_irrefl _ (lt_trans _ _ _ Hlt Hgt)).
    + rewrite Heq in Hgt. exact (lt_irrefl _ Hgt).
Qed.

Lemma str_le_trans a b c : str_le a b -> str_le b c -> str_le a c.
Proof.
  intros [->|Hab] [->|Hbc]; unfold str_le; auto.
  right. exact (lt_trans _ _ _ Hab Hbc).
Qed.

Lemma tuple_le_trans p q r : tuple_le p q -> tuple_le q r -> tuple_le p r.
Proof.
  unfold tuple_le.
  intros [Hpq|[Epq Lpq]] [Hqr|[Eqr Lqr]].
  - left. exact (lt_trans _ _ _ Hpq Hqr).
  - left. rewrite <- Eqr. exact Hpq.
  - left. rewrite Epq. exact Hqr.
  - right. split; [congruence|]. exact (str_le_trans _ _ _ Lpq Lqr).
Qed.

Lemma tuple_le_total p q : tuple_leb p q = false -> tuple_le q p.
Proof.
  unfold tuple_leb, tuple_le, str_leb.
  destruct (String_as_OT.compare_spec (fst p) (fst q)) as [Heq|Hlt|Hgt].
  - destruct (String_as_OT.compare_spec (snd p) (snd q)) as [Heq'|Hlt'|Hgt'];
      try discriminate.
    intros _. right. split; [congruence|]. now right.
  - discriminate.
  - intros _. now left.
Qed.

(** ** [sorted] sorts *)

Lemma insert_sorted_perm x l : Permutation (insert_sorted x l) (x :: l).
Proof.
  induction l as [|y l IH]; cbn [insert_sorted]; [reflexivity|].
  destruct (tuple_leb x y); [reflexivity|].
  rewrite IH. apply perm_swap.
Qed.

Lemma sorted_perm l : Permutation (sorted l) l.
Proof.
  induction l as [|x l IH]; cbn [sorted fold_right]; [reflexivity|].
  fold (sorted l). rewrite insert_sorted_perm. now constructor.
Qed.

Lemma insert_sorted_ordered x l :
  StronglySorted tuple_le l -> StronglySorted tuple_le (insert_sorted x l).
Proof.
  induction l as [|y l IH]; intros Hs; cbn [insert_sorted].
  - repeat constructor.
  - destruct (tuple_leb x y) eqn:Hxy.
    + apply tuple_leb_le in Hxy.
      constructor; [exact Hs|].
      constructor; [exact Hxy|].
      apply StronglySorted_inv in Hs as [_ Hall].
      eapply Forall_impl; [exact Hall|].
      intros z Hyz. exact (tuple_le_trans _ _ _ Hxy Hyz).
    + apply tuple_le_total in Hxy.
      apply StronglySorted_inv in Hs as [Hl Hall].
      constructor; [exact (IH Hl)|].
      apply Forall_forall. intros z Hz. apply list_elem_of_In in Hz.
      apply (Permutation_in _ (insert_sorted_perm x l)) in Hz.
      destruct Hz as [<-|Hz]; [exact Hxy|].
      rewrite Forall_forall in Hall. apply Hall, list_elem_of_In, Hz.
Qed.

Lemma sorted_ordered l : StronglySorted tuple_le (sorted l).
Proof.
  induction l as [|x l IH]; cbn [sorted fold_right]; [constructor|].
  apply insert_sorted_ordered. exact IH.
Qed.

(** ** Rows added by [new_items] *)

Definition entry_row (nd : string * string) : Row :=
  mkRow (PyStr (fst nd)) (PyStr (snd nd)) PyNone.

Definition add_rows (rs : list Row) (c : Category) : Category :=
  mkCat (cat_name c) (cat_sort c) (cat_rows c ++ rs).

Lemma add_rows_nil c : add_rows [] c = c.
Proof. destruct c. unfold add_rows. cbn. now rewrite app_nil_r. Qed.

Lemma add_rows_cons r rs c : add_rows rs (add_row r c) = add_rows (r :: rs) c.
Proof. unfold add_rows, add_row. cbn. now rewrite <- app_assoc. Qed.

Lemma new_items_first l c rest :
  new_items 0 l (c :: rest) = add_rows (map entry_row l) c :: rest.
Proof.
  revert c. induction l as [|nd l IH]; intros c.
  - cbn. now rewrite add_rows_nil.
  - unfold new_items in *. cbn [fold_left map].
    unfold add_entry at 2. cbn [new_item snd alter list_alter].
    rewrite IH, add_rows_cons. reflexivity.
Qed.

Lemma new_items_second l c0 c rest :
  new_items 1 l (c0 :: c :: rest) = c0 :: add_rows (map entry_row l) c :: rest.
Proof.
  revert c. induction l as [|nd l IH]; intros c.
  - cbn. now rewrite add_rows_nil.
  - unfold new_items in *. cbn [fold_left map].
    unfold add_entry at 2. cbn [new_item snd alter list_alter].
    rewrite IH, add_rows_cons. reflexivity.
Qed.

(** ** Rows added by the loops that can raise *)

Definition described (sd : SectData) (shown : string -> string) (opt : string)
    (r : Row) : Prop :=
  exists desc, option_description sd opt = Ok desc
               /\ row_name r = PyStr (shown opt) /\ row_desc r = PyStr desc.

Definition help_name (sn opt : string) : string := sn +:+ "->" +:+ opt.

Lemma help_options_rows sn sd c0 n s keys : forall rows m,
  foldM (help_add_option 1 sn sd) keys [c0; mkCat n s rows] = Ok m ->
  exists rows', m = [c0; mkCat n s (rows ++ rows')]
                /\ Forall2 (described sd (help_name sn)) keys rows'.
Proof.
  induction keys as [|opt keys IH]; intros rows m Hm; cbn [foldM] in Hm.
  - injection Hm as <-. exists []. rewrite app_nil_r. split; [reflexivity|constructor].
  - unfold help_add_option at 1 in Hm.
    destruct (option_description sd opt) as [desc|e] eqn:Hdesc; [|discriminate].
    cbn [bind new_item snd alter list_alter add_row cat_name cat_sort cat_rows] in Hm.
    apply IH in Hm as [rows' [-> Hall]].
    exists (mkRow (PyStr (sn +:+ "->" +:+ opt)) (PyStr desc) PyNone :: rows').
    rewrite <- app_assoc. split; [reflexivity|].
    constructor; [|exact Hall].
    exists desc. auto.
Qed.

Lemma help_sections_rows c0 n s data : forall rows m,
  foldM (fun m' (sect : string * SectData) =>
           foldM (help_add_option 1 (fst sect) (snd sect)) (sect_keys (snd sect)) m')
        data [c0; mkCat n s rows] = Ok m ->
  exists rows', m = [c0; mkCat n s (rows ++ rows')]
    /\ forall sn sd opt, In (sn, sd) data -> In opt (sect_keys sd) ->
         exists r, In r rows' /\ described sd (help_name sn) opt r.
Proof.
  induction data as [|[sn sd] data IH]; intros rows m Hm; cbn [foldM] in Hm.
  - injection Hm as <-. exists []. rewrite app_nil_r. split; [reflexivity|].
    intros ? ? ? [].
  - cbn [fst snd] in Hm.
    destruct (foldM (help_add_option 1 sn sd) (sect_keys sd) [c0; mkCat n s rows])
      as [m1|e] eqn:Hinner; [|discriminate].
    cbn [bind] in Hm.
    apply help_options_rows in Hinner as [rows1 [-> Hrows1]].
    apply IH in Hm as [rows2 [-> Hrows2]].
    exists (rows1 ++ rows2). rewrite app_assoc. split; [reflexivity|].
    intros sn' sd' opt [Heq|Hin] Hopt.
    + injection Heq as <- <-.
      apply list_elem_of_In, list_elem_of_lookup in Hopt as [i Hi].
      destruct (Forall2_lookup_l _ _ _ _ _ Hrows1 Hi) as [r [Hr Hdesc]].
      exists r. split; [|exact Hdesc].
      apply in_or_app. left. apply list_elem_of_In, list_elem_of_lookup. eauto.
    + destruct (Hrows2 sn' sd' opt Hin Hopt) as [r [Hr Hdesc]].
      exists r. split; [|exact Hdesc]. apply in_or_app. now right.
Qed.

Definition option_row (w : World) (section : string) (sd : SectData)
    (opt : string) (r : Row) : Prop :=
  described sd (fun o => o) opt r /\ config_get w section (PyStr opt) = Ok (row_misc r).

Lemma setting_options_rows w section sd n s keys : forall rows items self,
  foldM (so_add w section 0 sd) keys (mkSettingOption [mkCat n s rows] items) = Ok self ->
  exists rows', so_model self = [mkCat n s (rows ++ rows')]
                /\ Forall2 (option_row w section sd) keys rows'.
Proof.
  induction keys as [|opt keys IH]; intros rows items self Hm; cbn [foldM] in Hm.
  - injection Hm as <-. exists []. rewrite app_nil_r. split; [reflexivity|constructor].
  - unfold so_add at 1 in Hm.
    destruct (option_description sd opt) as [desc|e] eqn:Hdesc; [|discriminate].
    destruct (config_get w section (PyStr opt)) as [v|e] eqn:Hv; [|discriminate].
    cbn [bind new_item snd alter list_alter add_row cat_name cat_sort cat_rows
         so_model _misc_items] in Hm.
    apply IH in Hm as [rows' [-> Hall]].
    exists (mkRow (PyStr opt) (PyStr desc) v :: rows').
    rewrite <- app_assoc. split; [reflexivity|].
    constructor; [|exact Hall].
    split; [|exact Hv]. exists desc. auto.
Qed.

(** ** What a constructed [SettingValueCompletionModel] looks like *)

Definition current_category (v : pyval) : Category :=
  mkCat "Current" (Some 0) [mkRow (shown_value v) (PyStr "Current value") PyNone].

Definition allowed_categories (vals : completions) : list Category :=
  match vals with
  | None => []
  | Some allowed => [mkCat "Allowed" (Some 1) (map entry_row allowed)]
  end.

Lemma SettingValue_init_shape w section opt v self :
  config_get w section opt = Ok v ->
  SettingValue_init w section opt = Ok self ->
  exists vals, self = mkSettingValue (current_category v :: allowed_categories vals)
                                     (mkItem 0 0 0).
Proof.
  intros Hv. unfold SettingValue_init. cbn [new_category]. rewrite Hv. cbn [bind new_item].
  destruct (getitem (DATA w) section) as [sd|e]; [|discriminate]. cbn [bind].
  destruct (match sect_valtype sd with Some shared => Ok shared | None => _ end)
    as [vals|e]; [|discriminate].
  cbn [bind]. intros Hself. exists vals.
  destruct vals as [allowed|]; cbn in Hself |- *.
  - rewrite new_items_second in Hself. injection Hself as <-. reflexivity.
  - injection Hself as <-. reflexivity.
Qed.

(** ** A world to run the models in *)

Definition sample_get (section : string) (option : pyval) : result pyval :=
  match option with
  | PyNone => Ok PyNone
  | PyStr o =>
      if String.eqb o "editor" then Ok (PyStr "vim")
      else if String.eqb o "startpage" then Ok (PyStr "")
      else Err (ForeignError "NoOptionError")
  end.

Definition sample_general : SectData :=
  mkSect [("editor", None); ("startpage", Some [("about:blank", "An empty page")])]
         (Some {[ "editor" := "The editor to use." ]})
         None.

Definition sample_searchengines : SectData :=
  mkSect [("DEFAULT", None)] None (Some (Some [("{}", "The search term")])).

Definition sample_commands (a : nat) : Command :=
  match a with
  | O => mkCommand "open" "Open a page." false false
  | 1%nat => mkCommand "back" "Go back." false false
  | 2%nat => mkCommand "debug-crash" "Crash for debugging." false true
  | _ => mkCommand "run-hidden" "Internal." true false
  end.

Definition sample_world : World :=
  mkWorld sample_get
          [("o", "open"); ("q", "quit")]
          [("general", sample_general); ("searchengines", sample_searchengines)]
          (list_to_map [("open", 0%nat); ("back", 1%nat); ("debug-crash", 2%nat);
                        ("run-hidden", 3%nat)])
          sample_commands
          false
          [("home", "http://example.org/"); ("docs", "http://example.org/docs")].

Definition sample_options : SettingOptionCompletionModel :=
  mkSettingOption
    [mkCat "general" None [mkRow (PyStr "editor") (PyStr "The editor to use.") (PyStr "nano");
                           mkRow (PyStr "startpage") (PyStr "") (PyStr "about:blank")]]
    (<["editor" := mkItem 0 0 2]> (<["startpage" := mkItem 0 1 2]> ∅)).

Definition sample_value : SettingValueCompletionModel :=
  mkSettingValue [current_category (PyStr "about:blank")] (mkItem 0 0 0).

(** ** The configuration-change handlers *)

(** The toolkit's contract for an accepted write: the cell then displays the
    value written. *)
Definition stores (setData : list Category -> Item -> pyval -> bool * list Category)
    : Prop :=
  forall m idx v m', setData m idx v = (true, m') -> displayed m' idx = Some v.

Lemma cell_set_cell r col v old : cell r col = Some old -> cell (set_cell col v r) col = Some v.
Proof.
  destruct col as [|[|[|col]]]; cbn; intros H; try reflexivity. discriminate.
Qed.

Lemma item_setData_stores : stores item_setData.
Proof.
  intros m [c r col] v m'. unfold item_setData, displayed. cbn [item_cat item_row item_col].
  destruct (m !! c) as [cat|] eqn:Hc; cbn; [|discriminate].
  destruct (cat_rows cat !! r) as [row|] eqn:Hr; cbn; [|discriminate].
  destruct (cell row col) as [old|] eqn:Hcell; [|discriminate].
  intros Heq. injection Heq as <-.
  rewrite list_lookup_alter_eq, Hc. cbn.
  rewrite list_lookup_alter_eq, Hr. cbn.
  exact (cell_set_cell _ _ _ _ Hcell).
Qed.

Section SetData.

Variable setData : list Category -> Item -> pyval -> bool * list Category.

Lemma index_inv m it idx : index m it = Some idx -> idx = it.
Proof. unfold index. destruct (displayed m it); congruence. Qed.

(** C2. When [update_misc_column] finds its item, or [update_current_value]
    runs, with the configuration readable and the item's index valid, the
    method raises exactly when [setData] returns false, and what it raises is
    a [ValueError] whose message names the section, the option and the value;
    when [setData] returns true nothing is raised. Each method is covered
    under its own conditions. *)
Theorem failed_setData_raises_ValueError w section :
  (forall option so item val idx,
     _misc_items so !! option = Some item ->
     config_get w section (PyStr option) = Ok val ->
     index (so_model so) item = Some idx ->
     raised (update_misc_column setData w section option so)
     = (if fst (setData (so_model so) idx val) then None
        else Some (ValueError ("Setting data failed! (section: " +:+ section
                               +:+ ", option: " +:+ option
                               +:+ ", value: " +:+ py_str val +:+ ")"))))
  /\ (forall opt sv cur_val cur_idx,
        config_get w section opt = Ok cur_val ->
        index (sv_model sv) (cur_item sv) = Some cur_idx ->
        raised (update_current_value setData w section opt sv)
        = (if fst (setData (sv_model sv) cur_idx (shown_value cur_val)) then None
           else Some (ValueError ("Setting data failed! (section: " +:+ section
                                  +:+ ", option: " +:+ py_str opt
                                  +:+ ", value: " +:+ py_str (shown_value cur_val)
                                  +:+ ")")))).
Proof.
  split.
  - intros option so item val idx Hitem Hval Hidx.
    unfold update_misc_column. rewrite Hitem, Hval, Hidx. cbn [ensure_valid].
    destruct (setData (so_model so) idx val) as [[|] m]; reflexivity.
  - intros opt sv cur_val cur_idx Hcur Hcidx.
    unfold update_current_value. rewrite Hcur, Hcidx. cbn [ensure_valid].
    destruct (setData (sv_model sv) cur_idx (shown_value cur_val)) as [[|] m]; reflexivity.
Qed.

(** C4. For an option with no item in [_misc_items], [update_misc_column]
    logs one debug message and returns: nothing is raised and the model is
    the one it started with. *)
Theorem missing_item_logged_and_ignored w section option self :
  _misc_items self !! option = None ->
  update_misc_column setData w section option self
  = Run self ["Couldn't get item " +:+ section +:+ "." +:+ option +:+ " from model!"] None.
Proof. intros Hnone. unfold update_misc_column. rewrite Hnone. reflexivity. Qed.

(** C5, as the code has it. With a toolkit that displays what it accepts:
    after a run of [update_misc_column] that found its item and raised
    nothing, the misc item displays the configured value; and after a run of
    [update_current_value] that raised nothing, the current item displays the
    configured value when that is truthy and the two-quote text otherwise. *)
Theorem display_reflects_config w section :
  stores setData ->
  (forall option so item val,
     _misc_items so !! option = Some item ->
     config_get w section (PyStr option) = Ok val ->
     raised (update_misc_column setData w section option so) = None ->
     displayed (so_model (final (update_misc_column setData w section option so))) item
     = Some val)
  /\ (forall opt sv cur_val,
        config_get w section opt = Ok cur_val ->
        raised (update_current_value setData w section opt sv) = None ->
        displayed (sv_model (final (update_current_value setData w section opt sv)))
                  (cur_item sv)
        = Some (if truthy cur_val then cur_val else PyStr empty_literal)).
Proof.
  intros Hstores. split.
  - intros option so item val Hitem Hval. unfold update_misc_column.
    rewrite Hitem, Hval.
    destruct (index (so_model so) item) as [idx|] eqn:Hidx; [|discriminate].
    cbn [ensure_valid]. apply index_inv in Hidx as ->.
    destruct (setData (so_model so) item val) as [[|] m] eqn:Hset; [|discriminate].
    intros _. cbn. exact (Hstores _ _ _ _ Hset).
  - intros opt sv cur_val Hcur. unfold update_current_value. rewrite Hcur.
    destruct (index (sv_model sv) (cur_item sv)) as [idx|] eqn:Hidx; [|discriminate].
    cbn [ensure_valid]. apply index_inv in Hidx as ->.
    destruct (setData (sv_model sv) (cur_item sv) (shown_value cur_val))
      as [[|] m] eqn:Hset; [|discriminate].
    intros _. cbn. exact (Hstores _ _ _ _ Hset).
Qed.

(** C10. When the value read from the configuration is falsy, the current
    item of every model that was constructed displays the two-character text
    made of two double quotes, and so does the current item of any model after
    an [update_current_value] that raised nothing (with a toolkit that
    displays what it accepts). *)
Theorem falsy_value_shown_as_two_quotes w section opt v :
  truthy v = false ->
  config_get w section opt = Ok v ->
  (forall self,
     SettingValue_init w section opt = Ok self ->
     displayed (sv_model self) (cur_item self) = Some (PyStr empty_literal))
  /\ (stores setData ->
      forall sv,
        raised (update_current_value setData w section opt sv) = None ->
        displayed (sv_model (final (update_current_value setData w section opt sv)))
                  (cur_item sv)
        = Some (PyStr empty_literal))
  /\ empty_literal = String (ascii_of_nat 34) (String (ascii_of_nat 34) EmptyString).
Proof.
  intros Hfalsy Hv. split; [|split; [|reflexivity]].
  - intros self Hinit.
    destruct (SettingValue_init_shape _ _ _ _ _ Hv Hinit) as [vals ->].
    cbn. unfold shown_value. rewrite Hfalsy. reflexivity.
  - intros Hstores sv. unfold update_current_value. rewrite Hv.
    destruct (index (sv_model sv) (cur_item sv)) as [idx|] eqn:Hidx; [|discriminate].
    cbn [ensure_valid]. apply index_inv in Hidx as ->.
    destruct (setData (sv_model sv) (cur_item sv) (shown_value v))
      as [[|] m] eqn:Hset; [|discriminate].
    intros _. cbn. rewrite (Hstores _ _ _ _ Hset).
    unfold shown_value. rewrite Hfalsy. reflexivity.
Qed.

End SetData.

Lemma failed_setData_raises_ValueError_witness :
  raised (update_misc_column readonly_setData sample_world "general" "startpage"
            sample_options)
  = Some (ValueError "Setting data failed! (section: general, option: startpage, value: )")
  /\ raised (update_current_value readonly_setData sample_world "general"
               (PyStr "startpage") sample_value)
     = Some (ValueError ("Setting data failed! (section: general, option: startpage, value: "
                         +:+ empty_literal +:+ ")")).
Proof.
  refine (let H := failed_setData_raises_ValueError readonly_setData sample_world
                      "general" in
          conj (proj1 H "startpage" sample_options (mkItem 0 1 2) (PyStr "")
                      (mkItem 0 1 2) eq_refl eq_refl eq_refl)
               (proj2 H (PyStr "startpage") sample_value (PyStr "") (mkItem 0 0 0)
                      eq_refl eq_refl)).
Defined.

Example accepted_setData_raises_nothing :
  raised (update_misc_column item_setData sample_world "general" "editor" sample_options)
  = None
  /\ raised (update_current_value item_setData sample_world "general" (PyStr "editor")
               sample_value)
     = None.
Proof. split; reflexivity. Qed.

Lemma missing_item_logged_and_ignored_witness :
  update_misc_column item_setData sample_world "general" "colors" sample_options
  = Run sample_options ["Couldn't get item general.colors from model!"] None.
Proof.
  exact (missing_item_logged_and_ignored item_setData sample_world "general" "colors"
           sample_options eq_refl).
Defined.

Lemma display_reflects_config_witness :
  displayed (so_model (final (update_misc_column item_setData sample_world "general"
                                "editor" sample_options)))
            (mkItem 0 0 2)
  = Some (PyStr "vim")
  /\ displayed (sv_model (final (update_current_value item_setData sample_world "general"
                                  (PyStr "startpage") sample_value)))
               (mkItem 0 0 0)
     = Some (PyStr empty_literal).
Proof.
  refine (let H := display_reflects_config item_setData sample_world "general"
                     item_setData_stores in
          conj (proj1 H "editor" sample_options (mkItem 0 0 2) (PyStr "vim")
                  eq_refl eq_refl eq_refl)
               (proj2 H (PyStr "startpage") sample_value (PyStr "") eq_refl eq_refl)).
Defined.

(** C5, as the specification words it, fails for [update_current_value]: an
    empty configured value is displayed as two quotes, not as itself. *)
Lemma display_differs_for_empty_value :
  ~ (forall setData w section opt sv cur_val,
       stores setData ->
       config_get w section opt = Ok cur_val ->
       raised (update_current_value setData w section opt sv) = None ->
       displayed (sv_model (final (update_current_value setData w section opt sv)))
                 (cur_item sv)
       = Some cur_val).
Proof.
  intros Hclaim.
  specialize (Hclaim item_setData sample_world "general" (PyStr "startpage")
                sample_value (PyStr "") item_setData_stores eq_refl eq_refl).
  vm_compute in Hclaim. discriminate.
Qed.

Lemma falsy_value_shown_as_two_quotes_witness :
  displayed (sv_model (mkSettingValue
                         (current_category (PyStr "")
                          :: allowed_categories (Some [("about:blank", "An empty page")]))
                         (mkItem 0 0 0)))
            (mkItem 0 0 0)
  = Some (PyStr empty_literal)
  /\ displayed (sv_model (final (update_current_value item_setData sample_world "general"
                                  (PyStr "startpage") sample_value)))
               (cur_item sample_value)
     = Some (PyStr empty_literal).
Proof.
  refine (let H := falsy_value_shown_as_two_quotes item_setData sample_world "general"
                     (PyStr "startpage") (PyStr "") eq_refl eq_refl in
          conj (proj1 H _ eq_refl)
               (proj1 (proj2 H) item_setData_stores sample_value eq_refl)).
Defined.

(** The update does not depend on a construction: for the pair the
    constructor rejects, a model already there is still refreshed. *)
Example falsy_update_without_construction :
  SettingValue_init sample_world "general" PyNone
  = Err (ValueError "option may only be None for ValueList sections, but general is not!")
  /\ displayed (sv_model (final (update_current_value item_setData sample_world "general"
                                  PyNone sample_value)))
               (cur_item sample_value)
     = Some (PyStr empty_literal).
Proof. split; reflexivity. Qed.

(** ** Quickmarks *)

Definition quickmark_row (qm : string * string) : Row :=
  mkRow (PyStr (snd qm)) (PyStr (fst qm)) PyNone.

(** C7, as the code has it. The model has one category, with one row per
    quickmark in the manager's order; the row's name field is the quickmark's
    URL and its description field is the quickmark's name. *)
Theorem quickmark_rows w :
  Quickmark_init w = [mkCat "Quickmarks" None (map quickmark_row (marks w))]
  /\ (forall i name url,
        marks w !! i = Some (name, url) ->
        rows_of (Quickmark_init w) 0 !! i = Some (mkRow (PyStr url) (PyStr name) PyNone))
  /\ List.length (rows_of (Quickmark_init w) 0) = List.length (marks w).
Proof.
  assert (Hinit : Quickmark_init w
                  = [mkCat "Quickmarks" None (map quickmark_row (marks w))]).
  { unfold Quickmark_init, _on_quickmarks_changed. cbn [new_category app List.length].
    rewrite new_items_first. unfold add_rows. cbn [cat_name cat_sort cat_rows app].
    rewrite map_map. f_equal. f_equal. apply map_ext. intros [name url]. reflexivity. }
  rewrite Hinit. unfold rows_of. cbn [lookup list_lookup from_option cat_rows].
  split; [reflexivity|]. split.
  - intros i name url Hi.
    change (map quickmark_row (marks w)) with (quickmark_row <$> marks w).
    rewrite list_lookup_fmap, Hi. reflexivity.
  - apply length_map.
Qed.

(** C7, as the specification words it, fails: the row of the quickmark
    [home] carries the URL in its name field, and no row has [home] there. *)
Lemma quickmark_name_field_is_url :
  rows_of (Quickmark_init sample_world) 0
  = [mkRow (PyStr "http://example.org/") (PyStr "home") PyNone;
     mkRow (PyStr "http://example.org/docs") (PyStr "docs") PyNone]
  /\ ~ (exists r, In r (rows_of (Quickmark_init sample_world) 0)
                  /\ row_name r = PyStr "home"
                  /\ row_desc r = PyStr "http://example.org/").
Proof.
  split; [reflexivity|].
  intros [r [Hin [Hname _]]]. cbn in Hin.
  destruct Hin as [<-|[<-|[]]]; discriminate.
Qed.

(** ** Commands *)

Definition registered (w : World) : list nat :=
  elements (map_img (cmd_dict w) : gset nat).

Definition command_entry (c : Command) : string * string := (cmd_name c, cmd_desc c).
Definition help_entry (c : Command) : string * string := (":" +:+ cmd_name c, cmd_desc c).
Definition alias_entry (a : string * string) : string * string :=
  (fst a, "Alias for '" +:+ snd a +:+ "'").

Lemma registered_spec w a : In a (registered w) <-> exists name, cmd_dict w !! name = Some a.
Proof.
  unfold registered. rewrite <- list_elem_of_In, elem_of_elements.
  apply elem_of_map_img.
Qed.

Lemma listed_spec w c :
  listed w c = true <-> cmd_hide c = false /\ (cmd_debug c = false \/ args_debug w = true).
Proof.
  unfold listed. destruct (cmd_hide c), (cmd_debug c), (args_debug w); cbn; intuition congruence.
Qed.

Lemma Command_init_rows w :
  cmd_dict w <> ∅ ->
  Command_init w = Ok [mkCat "Commands" None (map entry_row (sorted (command_cmdlist w)))].
Proof.
  intros Hne. unfold Command_init, assert_cmd_dict.
  destruct (decide (cmd_dict w = ∅)) as [He|_]; [contradiction|].
  cbn [bind new_category app List.length]. rewrite new_items_first. reflexivity.
Qed.

Lemma init_commands_rows w :
  cmd_dict w <> ∅ ->
  _init_commands w [] = Ok [mkCat "Commands" None (map entry_row (sorted (help_cmdlist w)))].
Proof.
  intros Hne. unfold _init_commands, assert_cmd_dict.
  destruct (decide (cmd_dict w = ∅)) as [He|_]; [contradiction|].
  cbn [bind new_category app List.length]. rewrite new_items_first. reflexivity.
Qed.

Lemma init_settings_shape w c0 m :
  _init_settings w [c0] = Ok m ->
  exists rows, m = [c0; mkCat "Settings" None rows]
    /\ forall sn sd opt, In (sn, sd) (DATA w) -> In opt (sect_keys sd) ->
         exists r, In r rows /\ described sd (help_name sn) opt r.
Proof.
  unfold _init_settings. cbn [new_category app List.length]. intros Hm.
  apply help_sections_rows in Hm as [rows [-> Hrows]].
  exists rows. split; [reflexivity|exact Hrows].
Qed.

(** C8. With a non-empty command registry, the Commands category of
    [CommandCompletionModel] and of [HelpCompletionModel] holds one row per
    entry of a list that is sorted in the order of Python tuples of strings
    and is a rearrangement of: one (name, description) pair for every
    registered command object (each object once, whatever the number of names
    it is registered under) that is not hidden and not debug-only with debug
    mode off, followed for [CommandCompletionModel] by one pair per alias with
    the description [Alias for '<command>']; in [HelpCompletionModel] every
    command name is prefixed with a colon and there are no alias rows. *)
Theorem commands_category_sorted_and_exact w :
  cmd_dict w <> ∅ ->
  exists entries help_entries,
    Command_init w = Ok [mkCat "Commands" None (map entry_row entries)]
    /\ _init_commands w [] = Ok [mkCat "Commands" None (map entry_row help_entries)]
    /\ (forall m, Help_init w = Ok m ->
          m !! 0%nat = Some (mkCat "Commands" None (map entry_row help_entries)))
    /\ StronglySorted tuple_le entries
    /\ StronglySorted tuple_le help_entries
    /\ Permutation entries
         (map command_entry
              (filter (fun c => listed w c = true) (map (cmd_object w) (registered w)))
          ++ map alias_entry (config_aliases w))
    /\ Permutation help_entries
         (map help_entry
              (filter (fun c => listed w c = true) (map (cmd_object w) (registered w))))
    /\ NoDup (registered w)
    /\ (forall a, In a (registered w) <-> exists name, cmd_dict w !! name = Some a)
    /\ (forall c, listed w c = true
                  <-> cmd_hide c = false /\ (cmd_debug c = false \/ args_debug w = true)).
Proof.
  intros Hne.
  exists (sorted (command_cmdlist w)), (sorted (help_cmdlist w)).
  split; [exact (Command_init_rows w Hne)|].
  split; [exact (init_commands_rows w Hne)|].
  split.
  { intros m. unfold Help_init. rewrite (init_commands_rows w Hne). cbn [bind].
    intros Hm. apply init_settings_shape in Hm as [rows [-> _]]. reflexivity. }
  split; [apply sorted_ordered|].
  split; [apply sorted_ordered|].
  split; [apply sorted_perm|].
  split; [apply sorted_perm|].
  split; [unfold registered; apply NoDup_elements|].
  split; [apply registered_spec|apply listed_spec].
Qed.

Lemma sample_registry_not_empty : cmd_dict sample_world <> ∅.
Proof.
  intros Hempty. apply (f_equal (fun d : gmap string nat => d !! "open")) in Hempty.
  vm_compute in Hempty. discriminate.
Qed.

Lemma commands_category_sorted_and_exact_witness :
  exists entries help_entries,
    Command_init sample_world = Ok [mkCat "Commands" None (map entry_row entries)]
    /\ _init_commands sample_world []
       = Ok [mkCat "Commands" None (map entry_row help_entries)]
    /\ (forall m, Help_init sample_world = Ok m ->
          m !! 0%nat = Some (mkCat "Commands" None (map entry_row help_entries)))
    /\ StronglySorted tuple_le entries
    /\ StronglySorted tuple_le help_entries
    /\ Permutation entries
         (map command_entry
              (filter (fun c => listed sample_world c = true)
                      (map (cmd_object sample_world) (registered sample_world)))
          ++ map alias_entry (config_aliases sample_world))
    /\ Permutation help_entries
         (map help_entry
              (filter (fun c => listed sample_world c = true)
                      (map (cmd_object sample_world) (registered sample_world))))
    /\ NoDup (registered sample_world)
    /\ (forall a, In a (registered sample_world)
                  <-> exists name, cmd_dict sample_world !! name = Some a)
    /\ (forall c, listed sample_world c = true
                  <-> cmd_hide c = false
                      /\ (cmd_debug c = false \/ args_debug sample_world = true)).
Proof.
  exact (commands_category_sorted_and_exact sample_world sample_registry_not_empty).
Defined.

Example sample_command_rows :
  Command_init sample_world
  = Ok [mkCat "Commands" None
          (map entry_row [("back", "Go back."); ("o", "Alias for 'open'");
                          ("open", "Open a page."); ("q", "Alias for 'quit'")])]
  /\ _init_commands sample_world []
     = Ok [mkCat "Commands" None
             (map entry_row [(":back", "Go back."); (":open", "Open a page.")])].
Proof. split; vm_compute; reflexivity. Qed.

(** ** Constructing [SettingValueCompletionModel] without an option *)

(** C9. With the configuration readable for [option=None] and the section
    known to [configdata.DATA], construction raises a [ValueError] naming the
    section when the section has no [valtype] attribute; when it has one,
    construction succeeds and the Allowed category holds the completions of
    that shared [valtype] (no Allowed category when it offers none). *)
Theorem option_None_needs_valtype w section sd v :
  getitem (DATA w) section = Ok sd ->
  config_get w section PyNone = Ok v ->
  SettingValue_init w section PyNone
  = match sect_valtype sd with
    | None =>
        Err (ValueError ("option may only be None for ValueList sections, but "
                         +:+ section +:+ " is not!"))
    | Some shared =>
        Ok (mkSettingValue (current_category v :: allowed_categories shared) (mkItem 0 0 0))
    end.
Proof.
  intros Hsd Hv. unfold SettingValue_init. cbn [new_category].
  rewrite Hv. cbn [bind new_item]. rewrite Hsd. cbn [bind].
  destruct (sect_valtype sd) as [[allowed|]|]; cbn [bind]; try reflexivity.
  cbn [new_category app List.length alter list_alter from_option lookup list_lookup].
  rewrite new_items_second. reflexivity.
Qed.

Lemma option_None_needs_valtype_witness :
  SettingValue_init sample_world "general" PyNone
  = Err (ValueError "option may only be None for ValueList sections, but general is not!").
Proof.
  exact (option_None_needs_valtype sample_world "general" sample_general PyNone
           eq_refl eq_refl).
Defined.

Example option_None_with_valtype :
  SettingValue_init sample_world "searchengines" PyNone
  = Ok (mkSettingValue
          [mkCat "Current" (Some 0) [mkRow (PyStr empty_literal) (PyStr "Current value") PyNone];
           mkCat "Allowed" (Some 1) [mkRow (PyStr "{}") (PyStr "The search term") PyNone]]
          (mkItem 0 0 0)).
Proof. reflexivity. Qed.

(** ** Missing keys *)



Lemma SettingOption_init_rows w section sd self :
  getitem (DATA w) section = Ok sd ->
  SettingOption_init w section = Ok self ->
  exists rows, so_model self = [mkCat section None rows]
               /\ Forall2 (option_row w section sd) (sect_keys sd) rows.
Proof.
  intros Hsd. unfold SettingOption_init. cbn [new_category app List.length].
  rewrite Hsd. cbn [bind]. intros Hself.
  apply setting_options_rows in Hself as [rows [Hmodel Hrows]].
  exists rows. split; [exact Hmodel|exact Hrows].
Qed.




Example sample_option_rows :
  so_model <$> match SettingOption_init sample_world "general" with
               | Ok self => Some self
               | Err _ => None
               end
  = Some [mkCat "general" None
            [mkRow (PyStr "editor") (PyStr "The editor to use.") (PyStr "vim");
             mkRow (PyStr "startpage") (PyStr "") (PyStr "")]].
Proof. reflexivity. Qed.

End CompletionFacts.

(** * Further properties of the main window *)

Module MainWindowLaws.
Import Py Qt MainWindow.

(** ** The string helpers under [resize_completion] *)

Lemma endswith_append s c : endswith (s +:+ String c EmptyString) c = true.
Proof.
  induction s as [|a s IH].
  - change (EmptyString +:+ String c EmptyString) with (String c EmptyString).
    cbn [endswith]. apply Ascii.eqb_refl.
  - change (String a s +:+ String c EmptyString)
      with (String a (s +:+ String c EmptyString)).
    cbn [endswith].
    destruct (s +:+ String c EmptyString) eqn:Hs; [destruct s; discriminate|exact IH].
Qed.

Lemma rstrip_append s c : rstrip (s +:+ String c EmptyString) c = rstrip s c.
Proof.
  induction s as [|a s IH].
  - change (EmptyString +:+ String c EmptyString) with (String c EmptyString).
    cbn [rstrip]. rewrite Ascii.eqb_refl. reflexivity.
  - change (String a s +:+ String c EmptyString)
      with (String a (s +:+ String c EmptyString)).
    cbn [rstrip]. rewrite IH. reflexivity.
Qed.


Lemma wrap_int_fits_sub a b : in_c_int (a - b) = true -> wrap_int (a - b) = a - b.
Proof. apply MainWindowFacts.wrap_int_fits. Qed.

Section Toolkit.

Variable rt : Runtime.
Variable b64decode : string -> decoding.
Variable restoreGeometry : list Byte.byte -> restored.

(** ** [resize_completion] as a function of what it reads *)

(** The corner [QPoint(0, ...)] that [resize_completion] builds first. *)
Definition topleft (cfg : Config) (w : MainWindow) : result QPoint :=
  bind (completion_height rt cfg w) (fun h =>
  bind (top_coordinate rt w h) (QPoint_new rt (PyInt 0))).

Definition placed (w : MainWindow) (tl : QPoint) : QRect :=
  let up := mkPoint 0 (inspector_height w) in
  rect_of_corners
    (if inspector_visible w then point_sub tl up else tl)
    (if inspector_visible w then point_sub (topRight (status_geometry w)) up
     else topRight (status_geometry w)).

Lemma resize_completion_normal cfg w :
  resize_completion rt cfg w
  = match topleft cfg w with
    | Err e => raises e w
    | Ok tl => returns (completion_setGeometry (placed w tl) w)
    end.
Proof.
  unfold resize_completion, topleft.
  destruct (completion_height rt cfg w) as [h|e]; [|reflexivity]. cbn [bind].
  destruct (bind _ _) as [tl|e]; reflexivity.
Qed.

(** X1. [resize_completion] writes nothing but the completion widget's
    geometry, whether it returns or raises; when it raises the window is left
    exactly as it was. *)
Theorem resize_completion_frame cfg w :
  let r := resize_completion rt cfg w in
  geometry (final r) = geometry w
  /\ status_geometry (final r) = status_geometry w
  /\ status_errors (final r) = status_errors w
  /\ inspector_geometry (final r) = inspector_geometry w
  /\ inspector_visible (final r) = inspector_visible w
  /\ logged r = []
  /\ (raised r <> None -> final r = w).
Proof.
  cbv zeta. rewrite resize_completion_normal.
  destruct (topleft cfg w) as [tl|e]; cbn; repeat split; try reflexivity.
  intros H. destruct (H eq_refl).
Qed.

(** X2. [resize_completion] is idempotent: run again on the window it left
    behind, it gives the same outcome and the same window. *)
Theorem resize_completion_idempotent cfg w :
  resize_completion rt cfg (final (resize_completion rt cfg w))
  = resize_completion rt cfg w.
Proof.
  rewrite (resize_completion_normal cfg w).
  destruct (topleft cfg w) as [tl|e] eqn:Htl; cbn [final returns raises].
  - rewrite resize_completion_normal.
    change (topleft cfg (completion_setGeometry (placed w tl) w)) with (topleft cfg w).
    rewrite Htl. destruct w; reflexivity.
  - rewrite resize_completion_normal, Htl. reflexivity.
Qed.

(** X3. With developer-extras enabled, invoking the inspector command twice
    brings the inspector back to the visibility it had, and leaves the window
    and the outcome exactly as one [resize_completion] of the original window
    does. *)
Theorem toggle_inspector_twice cfg w :
  conf_developer_extras cfg = true ->
  let once := toggle_inspector rt cfg w in
  let twice := toggle_inspector rt cfg (final once) in
  inspector_visible (final twice) = inspector_visible w
  /\ final twice = final (resize_completion rt cfg w)
  /\ raised twice = raised (resize_completion rt cfg w).
Proof.
  intros Hdev. cbv zeta.
  assert (Hboth :
    toggle_inspector rt cfg (final (toggle_inspector rt cfg w))
    = resize_completion rt cfg w).
  { destruct w as [g sg se ig v cg].
    assert (Htop : forall v' c', topleft cfg (mkWindow g sg se ig v' c')
                                 = topleft cfg (mkWindow g sg se ig v cg))
      by reflexivity.
    assert (Hout : toggle_inspector rt cfg (mkWindow g sg se ig v cg)
                   = resize_completion rt cfg (mkWindow g sg se ig (negb v) cg)).
    { unfold toggle_inspector. rewrite Hdev. destruct v; reflexivity. }
    rewrite Hout.
    rewrite (resize_completion_normal cfg (mkWindow g sg se ig (negb v) cg)), Htop.
    rewrite (resize_completion_normal cfg (mkWindow g sg se ig v cg)).
    destruct (topleft cfg (mkWindow g sg se ig v cg)) as [tl|e] eqn:Htl;
      cbn [final returns raises completion_setGeometry inspector_visible
           inspector_set_visible geometry status_geometry status_errors
           inspector_geometry completion_geometry];
      unfold toggle_inspector; rewrite Hdev;
      cbn [inspector_visible inspector_set_visible completion_setGeometry geometry
           status_geometry status_errors inspector_geometry completion_geometry negb];
      destruct v; cbn [negb];
      rewrite resize_completion_normal;
      match goal with
      | |- context [topleft cfg ?x] =>
          replace (topleft cfg x) with (topleft cfg (mkWindow g sg se ig false cg))
            by reflexivity
      end;
      rewrite Htop; reflexivity. }
  rewrite Hboth. split; [|split; reflexivity].
  apply MainWindowFacts.resize_completion_inspector.
Qed.

(** The inspector command invoked [n] times in a row. *)
Definition press (n : nat) (cfg : Config) (w : MainWindow) : MainWindow :=
  Nat.iter n (fun w' => final (toggle_inspector rt cfg w')) w.

(** X4. With developer-extras disabled a hidden inspector can not be brought
    up: however often the command is invoked, the inspector stays hidden, the
    completion geometry is not touched, and every invocation adds one error
    message to the status bar. *)
Theorem inspector_stays_hidden n cfg w :
  conf_developer_extras cfg = false ->
  inspector_visible w = false ->
  inspector_visible (press n cfg w) = false
  /\ completion_geometry (press n cfg w) = completion_geometry w
  /\ geometry (press n cfg w) = geometry w
  /\ status_errors (press n cfg w)
     = status_errors w
       ++ repeat "Please enable developer-extras before using the webinspector!" n.
Proof.
  intros Hdev Hvis. induction n as [|n [IHv [IHc [IHg IHe]]]].
  - cbn. rewrite app_nil_r. auto.
  - assert (Hstep : press (S n) cfg w
                    = status_disp_error
                        "Please enable developer-extras before using the webinspector!"
                        (press n cfg w)).
    { change (press (S n) cfg w)
        with (final (toggle_inspector rt cfg (press n cfg w))).
      unfold toggle_inspector. rewrite IHv, Hdev. reflexivity. }
    rewrite Hstep.
    cbn [status_disp_error inspector_visible completion_geometry geometry status_errors].
    rewrite IHe. repeat split; try assumption.
    rewrite <- app_assoc. f_equal.
    cbn [repeat]. rewrite repeat_cons. reflexivity.
Qed.

(** X5. When [__init__] returns, the inspector is hidden and the window's
    geometry is either the default [QRect(50, 50, 800, 600)] or the rectangle
    that [restoreGeometry] restored from the decoded saved value; the status
    bar and the completion widget are as the base constructor left them. *)
Theorem init_returns_with_a_geometry stateconf fresh :
  let r := __init__ b64decode restoreGeometry stateconf fresh in
  raised r = None ->
  inspector_visible (final r) = false
  /\ (geometry (final r) = rect_xywh 50 50 800 600
      \/ exists encoded geom rect,
           saved_geometry stateconf = Ok encoded
           /\ b64decode encoded = Decoded geom
           /\ restoreGeometry geom = Restored rect
           /\ geometry (final r) = rect)
  /\ status_geometry (final r) = status_geometry fresh
  /\ status_errors (final r) = status_errors fresh
  /\ completion_geometry (final r) = completion_geometry fresh.
Proof.
  cbv zeta. unfold __init__.
  destruct (saved_geometry stateconf) as [encoded|e]; [|cbn; auto 6].
  destruct (b64decode encoded) as [geom| |e] eqn:Hdec.
  - destruct (restoreGeometry geom) as [rect| |k] eqn:Hres; cbn;
      [| auto 6 | discriminate].
    intros _. repeat split. right. exists encoded, geom, rect. auto.
  - cbn. auto 6.
  - destruct e; cbn; first [discriminate | auto 6].
Qed.

(** An exception the [except (KeyError, binascii.Error)] clause lets pass. *)
Definition uncaught (e : exn) : Prop := forall k, e <> KeyError k.

(** X6. [__init__] raises in exactly two situations. Either decoding the
    saved value raises something that is neither [KeyError] nor
    [binascii.Error] (the plain [ValueError] for a text that is not ASCII):
    that exception ends the constructor with the window untouched. Or the
    saved value decodes and [restoreGeometry] raises [KeyError]: the handler
    applies the default geometry, but the following [if not ok] reads a name
    that was never bound, so the constructor ends with [UnboundLocalError]. *)
Theorem init_raises_in_two_situations stateconf fresh :
  let r := __init__ b64decode restoreGeometry stateconf fresh in
  (raised r <> None
   <-> (exists encoded e,
          saved_geometry stateconf = Ok encoded
          /\ b64decode encoded = DecodeRaised e /\ uncaught e)
       \/ (exists encoded geom k,
             saved_geometry stateconf = Ok encoded
             /\ b64decode encoded = Decoded geom
             /\ restoreGeometry geom = RestoreKeyError k))
  /\ (forall encoded e,
        saved_geometry stateconf = Ok encoded ->
        b64decode encoded = DecodeRaised e -> uncaught e ->
        r = raises e fresh)
  /\ (forall encoded geom k,
        saved_geometry stateconf = Ok encoded ->
        b64decode encoded = Decoded geom ->
        restoreGeometry geom = RestoreKeyError k ->
        r = raises (UnboundLocalError "ok") (setGeometry (rect_xywh 50 50 800 600) fresh)).
Proof.
  cbv zeta. unfold __init__, uncaught.
  destruct (saved_geometry stateconf) as [encoded|e0].
  2:{ cbn. split; [split|split].
      - intros H. destruct (H eq_refl).
      - intros [[? [? [H _]]] | [? [? [? [H _]]]]]; discriminate.
      - intros ? ? H. discriminate.
      - intros ? ? ? H. discriminate. }
  destruct (b64decode encoded) as [geom| |e] eqn:Hdec.
  - destruct (restoreGeometry geom) as [rect| |k] eqn:Hres; cbn.
    + split; [split|split].
      * intros H. destruct (H eq_refl).
      * intros [[? [? [H [H' _]]]] | [? [? [? [H [H' H'']]]]]];
          injection H as <-; congruence.
      * intros ? ? H H'. injection H as <-. congruence.
      * intros ? ? ? H H' H''. injection H as <-. congruence.
    + split; [split|split].
      * intros H. destruct (H eq_refl).
      * intros [[? [? [H [H' _]]]] | [? [? [? [H [H' H'']]]]]];
          injection H as <-; congruence.
      * intros ? ? H H'. injection H as <-. congruence.
      * intros ? ? ? H H' H''. injection H as <-. congruence.
    + split; [split|split].
      * intros _. right. exists encoded, geom, k. auto.
      * discriminate.
      * intros ? ? H H'. injection H as <-. congruence.
      * intros ? ? ? _ _ _. reflexivity.
  - cbn. split; [split|split].
    + intros H. destruct (H eq_refl).
    + intros [[? [? [H [H' _]]]] | [? [? [? [H [H' H'']]]]]];
        injection H as <-; congruence.
    + intros ? ? H H'. injection H as <-. congruence.
    + intros ? ? ? H H'. injection H as <-. congruence.
  - assert (Hcases : (exists k, e = KeyError k) \/ (forall k, e <> KeyError k)).
    { destruct e; try (right; intros k; discriminate). left. eauto. }
    destruct Hcases as [[k ->] | Hun].
    + cbn. split; [split|split].
      * intros H. destruct (H eq_refl).
      * intros [[? [? [H [H' Hu]]]] | [? [? [? [H [H' H'']]]]]];
          injection H as <-; [|congruence].
        rewrite Hdec in H'. injection H' as <-. destruct (Hu k eq_refl).
      * intros ? ? H H' Hu. injection H as <-.
        rewrite Hdec in H'. injection H' as <-. destruct (Hu k eq_refl).
      * intros ? ? ? H H'. injection H as <-. congruence.
    + assert (Hrun : match e with
                     | KeyError _ =>
                         returns (inspector_set_visible false (_set_default_geometry fresh))
                     | _ => raises e fresh
                     end = raises e fresh).
      { destruct e; try reflexivity. destruct (Hun key eq_refl). }
      rewrite Hrun. cbn. split; [split|split].
      * intros _. left. exists encoded, e. auto.
      * discriminate.
      * intros ? ? H H' _. injection H as <-.
        rewrite Hdec in H'. injection H' as <-. reflexivity.
      * intros ? ? ? H H'. injection H as <-. congruence.
Qed.

(** X7. With the height configured in pixels, the status bar occupying the
    bottom rows of the window and every coordinate involved within the range
    of a C int, the completion widget ends on the status bar's top row (moved
    up by the inspector when that is visible) and is one pixel row higher than
    configured, visible inspector or not: both corners handed to [QRect] are
    inside the rectangle. *)
Theorem pixel_height_is_one_row_more cfg w n :
  endswith (conf_completion_height cfg) "%" = false ->
  py_int rt (conf_completion_height cfg) = Ok n ->
  y1 (status_geometry w) = height w - status_height w ->
  in_c_int (height w - status_height w - n) = true ->
  in_c_int (height w - status_height w - n
            - (if inspector_visible w then inspector_height w else 0)) = true ->
  in_c_int (height w - status_height w
            - (if inspector_visible w then inspector_height w else 0)) = true ->
  in_c_int (x2 (status_geometry w)) = true ->
  in_c_int (n + 1) = true ->
  let r := resize_completion rt cfg w in
  let up := if inspector_visible w then inspector_height w else 0 in
  raised r = None
  /\ rect_height (completion_geometry (final r)) = n + 1
  /\ y2 (completion_geometry (final r)) = y1 (status_geometry w) - up
  /\ x1 (completion_geometry (final r)) = 0
  /\ x2 (completion_geometry (final r)) = x2 (status_geometry w).
Proof.
  intros Hend Hn Hbottom Htop Htop' Hbot' Hx Hrows. cbv zeta.
  unfold resize_completion, completion_height. rewrite Hend, Hn.
  cbn [bind top_coordinate]. unfold QPoint_new.
  change (c_int rt (PyInt 0)) with (Ok (A := Z) 0).
  cbn [bind c_int]. unfold fit_c_int. rewrite Htop. cbn [bind].
  destruct (inspector_visible w);
    cbn [final returns raised completion_setGeometry completion_geometry];
    unfold rect_height, rect_of_corners, point_sub, topRight;
    cbn [px py x1 y1 x2 y2]; rewrite Hbottom.
  - rewrite (wrap_int_fits_sub _ _ Htop'), (wrap_int_fits_sub _ _ Hbot').
    replace (x2 (status_geometry w) - 0) with (x2 (status_geometry w)) by lia.
    rewrite (MainWindowFacts.wrap_int_fits _ Hx).
    replace (height w - status_height w - inspector_height w
             - (height w - status_height w - n - inspector_height w) + 1)
      with (n + 1) by lia.
    rewrite (MainWindowFacts.wrap_int_fits _ Hrows).
    repeat split; reflexivity.
  - replace (height w - status_height w - (height w - status_height w - n) + 1)
      with (n + 1) by lia.
    rewrite (MainWindowFacts.wrap_int_fits _ Hrows).
    repeat split; try reflexivity. lia.
Qed.

(** X8. Only the fact that the configured string ends with a percent sign
    counts, not how many there are: one more percent sign after a string that
    already ends with one changes nothing. *)
Theorem extra_percent_sign_ignored conf extras w :
  endswith conf "%" = true ->
  resize_completion rt (mkConfig (conf +:+ "%") extras) w
  = resize_completion rt (mkConfig conf extras) w.
Proof.
  intros Hend. unfold resize_completion, completion_height.
  cbn [conf_completion_height].
  rewrite (endswith_append conf "%"), (rstrip_append conf "%"), Hend. reflexivity.
Qed.


(** X11. A percentage for which [height * perc / 100] is the float of a whole
    number [k], in a run where the subtraction gives the float of the
    difference and the binding converts that float to the same integer, places
    the completion widget exactly as [k] pixels configured directly do. *)
Theorem whole_percent_equals_pixels conf conf' extras w perc k :
  endswith conf "%" = true ->
  py_int rt (rstrip conf "%") = Ok perc ->
  int_truediv rt (height w * perc) 100 = Ok (inject_Z k) ->
  int_sub_float rt (height w - status_height w) (inject_Z k)
  = Ok (inject_Z (height w - status_height w - k)) ->
  float_as_int rt (inject_Z (height w - status_height w - k))
  = Some (height w - status_height w - k) ->
  endswith conf' "%" = false ->
  py_int rt conf' = Ok k ->
  resize_completion rt (mkConfig conf extras) w
  = resize_completion rt (mkConfig conf' extras) w.
Proof.
  intros Hend Hperc Hdiv Hsub Hconv Hend' Hpx.
  unfold resize_completion, completion_height. cbn [conf_completion_height].
  rewrite Hend, Hperc, Hend', Hpx. cbn [bind]. rewrite Hdiv.
  cbn [bind top_coordinate]. rewrite Hsub. cbn [bind]. unfold QPoint_new.
  cbn [c_int]. rewrite Hconv. reflexivity.
Qed.

(** X25. A pixel height that puts the top coordinate outside the range of a
    C int makes [QPoint] raise [OverflowError]: [resize_completion] raises it
    and the window, the completion widget's geometry included, stays as it
    was. *)
Theorem oversized_pixel_height_overflows cfg w n :
  endswith (conf_completion_height cfg) "%" = false ->
  py_int rt (conf_completion_height cfg) = Ok n ->
  in_c_int (height w - status_height w - n) = false ->
  resize_completion rt cfg w = raises OverflowError w.
Proof.
  intros Hend Hn Hout.
  unfold resize_completion, completion_height. rewrite Hend, Hn.
  cbn [bind top_coordinate]. unfold QPoint_new.
  change (c_int rt (PyInt 0)) with (Ok (A := Z) 0).
  cbn [bind c_int]. unfold fit_c_int. rewrite Hout. reflexivity.
Qed.

(** X26. A percentage makes the top coordinate a float, so with a binding
    that takes no float where Qt wants an [int], every percentage that gets as
    far as [QPoint] raises [TypeError] and leaves the window as it was. *)
Theorem percentage_needs_float_conversion cfg w perc q d :
  endswith (conf_completion_height cfg) "%" = true ->
  py_int rt (rstrip (conf_completion_height cfg) "%") = Ok perc ->
  int_truediv rt (height w * perc) 100 = Ok q ->
  int_sub_float rt (height w - status_height w) q = Ok d ->
  float_as_int rt d = None ->
  resize_completion rt cfg w = raises TypeError w.
Proof.
  intros Hend Hperc Hdiv Hsub Hconv.
  unfold resize_completion, completion_height. rewrite Hend, Hperc.
  cbn [bind]. rewrite Hdiv. cbn [bind top_coordinate]. rewrite Hsub.
  cbn [bind]. unfold QPoint_new.
  change (c_int rt (PyInt 0)) with (Ok (A := Z) 0).
  cbn [bind c_int]. rewrite Hconv. reflexivity.
Qed.

End Toolkit.

(** ** Runs on a sample window *)

Definition w0 : MainWindow := MainWindowFacts.sample_window.
Definition rt0 : Runtime := MainWindowFacts.old_runtime.

Definition decode_fixed (s : string) : decoding := Decoded [].
Definition decode_not_ascii (s : string) : decoding :=
  DecodeRaised (ValueError "string argument should contain only ASCII characters").
Definition restore_fixed (b : list Byte.byte) : restored :=
  Restored (rect_xywh 10 20 640 480).
Definition restore_KeyError (b : list Byte.byte) : restored :=
  RestoreKeyError (PyStr "geometry").
Definition saved_state : gmap string (gmap string string) :=
  {[ "geometry" := {[ "mainwindow" := "AdnQywAB" ]} ]}.

Lemma toggle_inspector_twice_witness :
  inspector_visible
    (final (toggle_inspector rt0 (mkConfig "30%" true)
              (final (toggle_inspector rt0 (mkConfig "30%" true) w0))))
  = true.
Proof.
  exact (proj1 (toggle_inspector_twice rt0 (mkConfig "30%" true) w0 eq_refl)).
Defined.

Lemma inspector_stays_hidden_witness :
  status_errors (press rt0 3 (mkConfig "30%" false) (inspector_set_visible false w0))
  = repeat "Please enable developer-extras before using the webinspector!" 3.
Proof.
  exact (proj2 (proj2 (proj2
           (inspector_stays_hidden rt0 3 (mkConfig "30%" false)
              (inspector_set_visible false w0) eq_refl eq_refl)))).
Defined.

Lemma init_returns_with_a_geometry_witness :
  geometry (final (__init__ decode_fixed restore_fixed saved_state w0))
  = rect_xywh 50 50 800 600
  \/ exists encoded geom rect,
       saved_geometry saved_state = Ok encoded
       /\ decode_fixed encoded = Decoded geom
       /\ restore_fixed geom = Restored rect
       /\ geometry (final (__init__ decode_fixed restore_fixed saved_state w0)) = rect.
Proof.
  exact (proj1 (proj2
           (init_returns_with_a_geometry decode_fixed restore_fixed saved_state w0 eq_refl))).
Defined.

Example init_restores_saved_geometry :
  __init__ decode_fixed restore_fixed saved_state w0
  = returns (inspector_set_visible false (setGeometry (rect_xywh 10 20 640 480) w0)).
Proof. reflexivity. Qed.

Example init_after_restore_KeyError :
  __init__ decode_fixed restore_KeyError saved_state w0
  = raises (UnboundLocalError "ok") (setGeometry (rect_xywh 50 50 800 600) w0).
Proof. reflexivity. Qed.

Example init_with_a_saved_value_that_is_not_ascii :
  __init__ decode_not_ascii restore_fixed saved_state w0
  = raises (ValueError "string argument should contain only ASCII characters") w0.
Proof. reflexivity. Qed.

Lemma pixel_height_is_one_row_more_witness :
  rect_height
    (completion_geometry (final (resize_completion rt0 (mkConfig "120" true) w0)))
  = 121.
Proof.
  exact (proj1 (proj2
           (pixel_height_is_one_row_more rt0 (mkConfig "120" true) w0 120
              eq_refl eq_refl eq_refl eq_refl eq_refl eq_refl eq_refl eq_refl))).
Defined.

Lemma extra_percent_sign_ignored_witness :
  resize_completion rt0 (mkConfig "30%%" true) w0
  = resize_completion rt0 (mkConfig "30%" true) w0.
Proof.
  exact (extra_percent_sign_ignored rt0 "30%" true w0 eq_refl).
Defined.


Lemma whole_percent_equals_pixels_witness :
  resize_completion rt0 (mkConfig "30%" true) w0
  = resize_completion rt0 (mkConfig "180" true) w0.
Proof.
  exact (whole_percent_equals_pixels rt0 "30%" "180" true w0 30 180
           eq_refl eq_refl eq_refl eq_refl eq_refl eq_refl eq_refl).
Defined.

Lemma oversized_pixel_height_overflows_witness :
  resize_completion rt0 (mkConfig "99999999999" true) w0 = raises OverflowError w0.
Proof.
  exact (oversized_pixel_height_overflows rt0 (mkConfig "99999999999" true) w0
           99999999999 eq_refl eq_refl eq_refl).
Defined.

Lemma percentage_needs_float_conversion_witness :
  resize_completion MainWindowFacts.new_runtime (mkConfig "30%" true) w0
  = raises TypeError w0.
Proof.
  exact (percentage_needs_float_conversion MainWindowFacts.new_runtime
           (mkConfig "30%" true) w0 30 (180 # 1) (400 # 1)
           eq_refl eq_refl eq_refl eq_refl eq_refl).
Defined.

End MainWindowLaws.

(** * Further properties of the completion models *)

Module CompletionLaws.
Import Py BaseCompletion Completion CompletionFacts.

(** ** Dictionary lookup *)

Lemma getitem_Ok {V} (d : list (string * V)) key v :
  getitem d key = Ok v -> In (key, v) d.
Proof.
  induction d as [|[k x] d IH]; cbn; [discriminate|].
  destruct (String.eqb_spec k key) as [->|Hne].
  - intros Heq. injection Heq as ->. now left.
  - intros H. right. exact (IH H).
Qed.

Lemma getitem_Err {V} (d : list (string * V)) key e :
  getitem d key = Err e -> e = KeyError (PyStr key) /\ ~ In key (map fst d).
Proof.
  induction d as [|[k x] d IH]; cbn.
  - intros Heq. injection Heq as <-. auto.
  - destruct (String.eqb_spec k key) as [->|Hne]; [discriminate|].
    intros H. destruct (IH H) as [-> Hnot]. split; [reflexivity|].
    intros [Heq|Hin]; [exact (Hne Heq)|exact (Hnot Hin)].
Qed.

(** ** The items [SettingOptionCompletionModel] remembers *)

Lemma setting_options_items w section sd n s keys : forall rows items self,
  foldM (so_add w section 0 sd) keys (mkSettingOption [mkCat n s rows] items) = Ok self ->
  forall name,
    (~ In name keys -> _misc_items self !! name = items !! name)
    /\ (forall j, NoDup keys -> keys !! j = Some name ->
          _misc_items self !! name = Some (mkItem 0 (List.length rows + j) 2)).
Proof.
  induction keys as [|opt keys IH]; intros rows items self Hm name; cbn [foldM] in Hm.
  - injection Hm as <-. split; [reflexivity|]. intros j _ Hj. discriminate.
  - unfold so_add at 1 in Hm.
    destruct (option_description sd opt) as [desc|e]; [|discriminate].
    destruct (config_get w section (PyStr opt)) as [v|e]; [|discriminate].
    cbn [bind new_item snd alter list_alter add_row cat_name cat_sort cat_rows
         so_model _misc_items lookup list_lookup from_option] in Hm.
    destruct (IH _ _ _ Hm name) as [IHout IHin].
    split.
    + intros Hnot. rewrite IHout by (intros Hin; apply Hnot; now right).
      apply lookup_insert_ne. intros ->. apply Hnot. now left.
    + intros j Hnodup Hj. apply NoDup_cons in Hnodup as [Hfresh Hnodup].
      destruct j as [|j]; cbn in Hj.
      * injection Hj as ->.
        rewrite IHout by (intros Hin; apply Hfresh, list_elem_of_In, Hin).
        rewrite lookup_insert_eq. do 2 f_equal. lia.
      * rewrite (IHin j Hnodup Hj). rewrite length_app. cbn. do 2 f_equal. lia.
Qed.

Lemma constructed_items w section sd self :
  getitem (DATA w) section = Ok sd ->
  SettingOption_init w section = Ok self ->
  NoDup (sect_keys sd) ->
  List.length (rows_of (so_model self) 0) = List.length (sect_keys sd)
  /\ (forall i name, sect_keys sd !! i = Some name ->
        _misc_items self !! name = Some (mkItem 0 i 2))
  /\ (forall name, ~ In name (sect_keys sd) -> _misc_items self !! name = None).
Proof.
  intros Hsd Hself Hnodup.
  destruct (SettingOption_init_rows _ _ _ _ Hsd Hself) as [rows [Hmodel Hrows]].
  revert Hself. unfold SettingOption_init. cbn [new_category app List.length].
  rewrite Hsd. cbn [bind]. intros Hself.
  pose proof (setting_options_items _ _ _ _ _ _ _ _ _ Hself) as Hitems.
  split; [|split].
  - rewrite Hmodel. unfold rows_of. cbn [lookup list_lookup from_option cat_rows].
    symmetry. exact (Forall2_length _ _ _ Hrows).
  - intros i name Hi. destruct (Hitems name) as [_ Hin]. exact (Hin i Hnodup Hi).
  - intros name Hnot. destruct (Hitems name) as [Hout _]. rewrite (Hout Hnot).
    apply lookup_empty.
Qed.

(** X12. A constructed [SettingOptionCompletionModel] remembers, for the
    option at position [i] of the section, the item of the third cell of row
    [i], and remembers nothing for a name that is not an option of the
    section. The model has as many rows as the section has options. *)
Theorem misc_items_point_at_rows w section sd self :
  getitem (DATA w) section = Ok sd ->
  SettingOption_init w section = Ok self ->
  NoDup (sect_keys sd) ->
  List.length (rows_of (so_model self) 0) = List.length (sect_keys sd)
  /\ (forall i name, sect_keys sd !! i = Some name ->
        _misc_items self !! name = Some (mkItem 0 i 2))
  /\ (forall name, ~ In name (sect_keys sd) -> _misc_items self !! name = None).
Proof. exact (constructed_items w section sd self). Qed.

(** X13. After construction, a change of any option of the section is shown:
    with the item model's own [setData], [update_misc_column] for the option
    at position [i] raises nothing, logs nothing, and replaces the third cell
    of row [i] by the value the configuration now has; every other cell and
    the remembered items stay as they were. *)
Theorem update_after_construction w w' section sd self i name v :
  getitem (DATA w) section = Ok sd ->
  SettingOption_init w section = Ok self ->
  NoDup (sect_keys sd) ->
  sect_keys sd !! i = Some name ->
  config_get w' section (PyStr name) = Ok v ->
  let r := update_misc_column item_setData w' section name self in
  raised r = None
  /\ logged r = []
  /\ _misc_items (final r) = _misc_items self
  /\ so_model (final r)
     = [mkCat section None (alter (set_cell 2 v) i (rows_of (so_model self) 0))].
Proof.
  intros Hsd Hself Hnodup Hi Hv.
  destruct (constructed_items _ _ _ _ Hsd Hself Hnodup) as [Hlen [Hitem _]].
  destruct (SettingOption_init_rows _ _ _ _ Hsd Hself) as [rows [Hmodel _]].
  rewrite Hmodel in Hlen |- *. unfold rows_of in Hlen |- *.
  cbn [lookup list_lookup from_option cat_rows] in Hlen |- *.
  assert (Hrow : exists row, rows !! i = Some row).
  { apply lookup_lt_is_Some. rewrite Hlen. apply lookup_lt_is_Some. eauto. }
  destruct Hrow as [row Hrow].
  cbv zeta. unfold update_misc_column. rewrite (Hitem i name Hi), Hv.
  unfold index, item_setData, displayed.
  rewrite Hmodel. cbn [item_cat item_row item_col lookup list_lookup mbind option_bind cat_rows].
  rewrite Hrow. cbn [mbind option_bind cell ensure_valid].
  cbn [item_cat item_row item_col lookup list_lookup mbind option_bind cat_rows].
  rewrite Hrow. cbn. auto.
Qed.

(** X14. An option whose description is present but empty makes the
    construction of [SettingOptionCompletionModel] for its section, and of
    [HelpCompletionModel], fail: the first line of an empty text does not
    exist, and only a missing description is caught. *)
Theorem empty_description_breaks_construction w section sd ds name :
  getitem (DATA w) section = Ok sd ->
  In name (sect_keys sd) ->
  sect_descriptions sd = Some ds ->
  ds !! name = Some "" ->
  option_description sd name = Err (IndexError "list index out of range")
  /\ (exists e, SettingOption_init w section = Err e)
  /\ (exists e, Help_init w = Err e).
Proof.
  intros Hsd Hname Hds Hempty.
  assert (Hdesc : option_description sd name = Err (IndexError "list index out of range")).
  { unfold option_description. rewrite Hds, Hempty. reflexivity. }
  split; [exact Hdesc|]. split.
  - destruct (SettingOption_init w section) as [self|e] eqn:Hinit; [|eauto].
    exfalso.
    destruct (SettingOption_init_rows _ _ _ _ Hsd Hinit) as [rows [_ Hrows]].
    apply list_elem_of_In, list_elem_of_lookup in Hname as [i Hi].
    destruct (Forall2_lookup_l _ _ _ _ _ Hrows Hi) as [r [_ [[desc [Hd _]] _]]].
    congruence.
  - destruct (Help_init w) as [m|e] eqn:Hinit; [|eauto].
    exfalso. revert Hinit. unfold Help_init.
    destruct (_init_commands w []) as [m0|e] eqn:Hcmds; [|discriminate].
    cbn [bind]. intros Hm.
    assert (exists c0, m0 = [c0]) as [c0 ->].
    { revert Hcmds. unfold _init_commands.
      destruct (assert_cmd_dict w); [|discriminate].
      cbn [bind new_category app List.length]. rewrite new_items_first.
      intros Heq. injection Heq as <-. eauto. }
    apply init_settings_shape in Hm as [rows [_ Hrows]].
    destruct (Hrows section sd name (getitem_Ok _ _ _ Hsd) Hname)
      as [r [_ [desc [Hd _]]]].
    congruence.
Qed.

(** ** Descriptions are cut at the first line break *)

Fixpoint no_line_break (s : string) : bool :=
  match s with
  | EmptyString => true
  | String a rest => (negb (at_line_break s) && no_line_break rest)%bool
  end.

Lemma at_line_break_prefix a rest :
  at_line_break (String a rest) = false ->
  at_line_break (String a (line_prefix rest)) = false.
Proof.
  destruct rest as [|b rest]; [auto|].
  cbn [line_prefix].
  destruct (at_line_break (String b rest)) eqn:Hb.
  - cbn [at_line_break]. rewrite !orb_false_iff. intros [[H1 H2] _]. auto.
  - destruct rest as [|c rest].
    + cbn [line_prefix]. auto.
    + cbn [line_prefix].
      destruct (at_line_break (String c rest)).
      * cbn [at_line_break]. rewrite !orb_false_iff.
        intros [[H1 H2] [H3 _]]. auto.
      * cbn [at_line_break]. auto.
Qed.

Lemma line_prefix_no_break s : no_line_break (line_prefix s) = true.
Proof.
  induction s as [|a rest IH]; [reflexivity|].
  cbn [line_prefix].
  destruct (at_line_break (String a rest)) eqn:Ha; [reflexivity|].
  cbn [no_line_break]. rewrite (at_line_break_prefix _ _ Ha), IH. reflexivity.
Qed.

(** What follows the first line of a text is empty or starts at a line
    break. *)
Lemma line_prefix_split s :
  exists rest, s = line_prefix s +:+ rest /\ (rest = "" \/ at_line_break rest = true).
Proof.
  induction s as [|a s [rest [IH Hrest]]]; [exists ""; auto|].
  cbn [line_prefix]. destruct (at_line_break (String a s)) eqn:Ha.
  - exists (String a s). auto.
  - exists rest. split; [|exact Hrest].
    change (String a (line_prefix s) +:+ rest) with (String a (line_prefix s +:+ rest)).
    f_equal. exact IH.
Qed.

(** A line break starts with none of the bytes that can only continue one. *)
Lemma line_break_head b r :
  at_line_break (String b r) = true ->
  byte_is b 133 = false /\ byte_is b 128 = false
  /\ byte_is b 168 = false /\ byte_is b 169 = false.
Proof.
  unfold at_line_break, byte_is. intros H.
  assert (Hn : (10 <= nat_of_ascii b <= 13 \/ 28 <= nat_of_ascii b <= 30
                \/ nat_of_ascii b = 194 \/ nat_of_ascii b = 226)%nat).
  { destruct r as [|c [|c' r]];
      repeat (rewrite ?orb_true_iff, ?andb_true_iff, ?orb_false_r, ?Nat.leb_le,
                      ?Nat.eqb_eq in H);
      intuition lia. }
  repeat split; apply Nat.eqb_neq; lia.
Qed.

(** A line break is recognised from the text's first three bytes, so a prefix
    without line break has none either when a line break or nothing follows
    it. *)
Lemma no_break_before a d rest :
  at_line_break (String a d) = false ->
  rest = "" \/ at_line_break rest = true ->
  at_line_break (String a (d +:+ rest)) = false.
Proof.
  intros Ha [-> | Hrest].
  - replace (d +:+ "") with d; [exact Ha|].
    clear Ha. induction d as [|c d IH]; [reflexivity|].
    change (String c d +:+ "") with (String c (d +:+ "")). now rewrite <- IH.
  - destruct rest as [|b r]; [discriminate|].
    destruct (line_break_head _ _ Hrest) as [H133 [H128 [H168 H169]]].
    destruct d as [|c [|c' d]].
    + change ("" +:+ String b r) with (String b r).
      revert Ha. unfold at_line_break. rewrite H133, H128.
      rewrite !andb_false_r, !orb_false_r.
      destruct r; rewrite ?andb_false_r, ?orb_false_r; auto.
    + change (String c "" +:+ String b r) with (String c (String b r)).
      revert Ha. unfold at_line_break. rewrite H168, H169.
      rewrite !andb_false_r, !orb_false_r. auto.
    + exact Ha.
Qed.

(** The first line of a text is the only prefix without line break that is
    followed by nothing or by a line break. *)
Lemma first_line_unique d rest :
  no_line_break d = true ->
  rest = "" \/ at_line_break rest = true ->
  line_prefix (d +:+ rest) = d.
Proof.
  intros Hd Hrest. induction d as [|a d IH].
  - change ("" +:+ rest) with rest.
    destruct Hrest as [-> | Hrest]; [reflexivity|].
    destruct rest; [discriminate|]. cbn [line_prefix]. rewrite Hrest. reflexivity.
  - cbn [no_line_break] in Hd. apply andb_true_iff in Hd as [Ha Hd].
    apply negb_true_iff in Ha.
    change (String a d +:+ rest) with (String a (d +:+ rest)).
    cbn [line_prefix]. rewrite (no_break_before _ _ _ Ha Hrest), (IH Hd). reflexivity.
Qed.

(** The option has no description to show: the section has no
    [descriptions] attribute or it has no entry for the option. *)
Definition undescribed (sd : SectData) (name : string) : Prop :=
  sect_descriptions sd = None
  \/ exists ds, sect_descriptions sd = Some ds /\ ds !! name = None.

(** [d] is the part of [text] before its first line break: [text] goes on
    after [d] with a line break or not at all, [d] contains no line break, and
    no other string is placed like that in [text]. *)
Definition before_first_line_break (text d : string) : Prop :=
  (exists rest, text = d +:+ rest /\ (rest = "" \/ at_line_break rest = true))
  /\ no_line_break d = true
  /\ (forall d' rest', text = d' +:+ rest' -> no_line_break d' = true ->
         rest' = "" \/ at_line_break rest' = true -> d' = d).

Lemma line_prefix_before_first_line_break text :
  before_first_line_break text (line_prefix text).
Proof.
  split; [apply line_prefix_split|]. split; [apply line_prefix_no_break|].
  intros d' rest' -> Hd' Hrest'. symmetry. now apply first_line_unique.
Qed.

Lemma option_description_single_line sd name d :
  option_description sd name = Ok d ->
  (d = "" /\ undescribed sd name)
  \/ exists ds text,
       sect_descriptions sd = Some ds /\ ds !! name = Some text /\ text <> ""
       /\ before_first_line_break text d.
Proof.
  unfold option_description, undescribed.
  destruct (sect_descriptions sd) as [ds|] eqn:Hds.
  2:{ intros Heq. injection Heq as <-. auto. }
  destruct (ds !! name) as [text|] eqn:Htext.
  2:{ intros Heq. injection Heq as <-. left. eauto. }
  destruct text as [|a text]; [discriminate|].
  change (first_line (String a text)) with (Ok (line_prefix (String a text))).
  intros Heq. assert (Hd : d = line_prefix (String a text)) by congruence.
  rewrite Hd. clear Heq Hd.
  right. exists ds, (String a text).
  split; [reflexivity|]. split; [exact Htext|]. split; [discriminate|].
  apply line_prefix_before_first_line_break.
Qed.

(** X15. Every description shown by a constructed
    [SettingOptionCompletionModel] is a single line. For an option without
    configured description it is empty. Otherwise the configured description
    is not empty and the one shown is exactly its part before the first line
    break: the configured text goes on after it with a line break or not at
    all, it contains no line break itself, and it is the only string placed
    like that in the configured text. *)
Theorem shown_descriptions_are_single_lines w section sd self :
  getitem (DATA w) section = Ok sd ->
  SettingOption_init w section = Ok self ->
  forall i r, rows_of (so_model self) 0 !! i = Some r ->
    exists name d,
      sect_keys sd !! i = Some name
      /\ row_name r = PyStr name
      /\ row_desc r = PyStr d
      /\ no_line_break d = true
      /\ ((d = "" /\ undescribed sd name)
          \/ exists ds text,
               sect_descriptions sd = Some ds /\ ds !! name = Some text /\ text <> ""
               /\ before_first_line_break text d).
Proof.
  intros Hsd Hself i r Hr.
  destruct (SettingOption_init_rows _ _ _ _ Hsd Hself) as [rows [Hmodel Hrows]].
  rewrite Hmodel in Hr. unfold rows_of in Hr.
  cbn [lookup list_lookup from_option cat_rows] in Hr.
  destruct (Forall2_lookup_r _ _ _ _ _ Hrows Hr) as [name [Hname [[d [Hd [Hn Hrd]]] _]]].
  exists name, d.
  destruct (option_description_single_line _ _ _ Hd)
    as [[-> Hnone] | [ds [text [Hds [Htext [Hne Hfirst]]]]]].
  - repeat split; auto.
  - repeat split; auto.
    + apply Hfirst.
    + right. exists ds, text. auto.
Qed.

(** ** [SettingValueCompletionModel] as a function of what it reads *)

Definition allowed_for (data : list (string * SectData)) (section : string)
    (opt : pyval) : result completions :=
  bind (getitem data section) (fun sd =>
  match sect_valtype sd with
  | Some shared => Ok shared
  | None =>
      match opt with
      | PyNone =>
          Err (ValueError ("option may only be None for ValueList sections, but "
                           +:+ section +:+ " is not!"))
      | PyStr o => getitem (sect_items sd) o
      end
  end).

Lemma SettingValue_init_normal w section opt :
  SettingValue_init w section opt
  = bind (config_get w section opt) (fun v =>
    bind (allowed_for (DATA w) section opt) (fun vals =>
    Ok (mkSettingValue (current_category v :: allowed_categories vals) (mkItem 0 0 0)))).
Proof.
  unfold SettingValue_init, allowed_for. cbn [new_category].
  destruct (config_get w section opt) as [v|e]; [|reflexivity]. cbn [bind new_item].
  destruct (getitem (DATA w) section) as [sd|e]; [|reflexivity]. cbn [bind].
  destruct (match sect_valtype sd with Some shared => Ok shared | None => _ end)
    as [[allowed|]|e]; cbn [bind]; try reflexivity.
  cbn [new_category app List.length alter list_alter from_option lookup list_lookup].
  rewrite new_items_second. reflexivity.
Qed.

(** X16. Refreshing equals rebuilding: when the configuration changes and the
    settings metadata does not, [update_current_value] with the item model's
    own [setData] raises nothing and turns a constructed
    [SettingValueCompletionModel] into exactly the model that constructing it
    anew would give. *)
Theorem refresh_equals_reconstruction w w' section opt self v :
  SettingValue_init w section opt = Ok self ->
  DATA w' = DATA w ->
  config_get w' section opt = Ok v ->
  exists self',
    SettingValue_init w' section opt = Ok self'
    /\ update_current_value item_setData w' section opt self = returns self'.
Proof.
  rewrite !SettingValue_init_normal. intros Hself Hdata Hv.
  rewrite Hdata, Hv. cbn [bind].
  destruct (config_get w section opt) as [v0|e]; [|discriminate]. cbn [bind] in Hself.
  destruct (allowed_for (DATA w) section opt) as [vals|e]; [|discriminate].
  cbn [bind] in Hself |- *. injection Hself as <-.
  eexists. split; [reflexivity|].
  unfold update_current_value. rewrite Hv. reflexivity.
Qed.

(** X17. In a section whose options have types of their own, the values
    offered for a named option are the completions of that option's type, and
    an option the section does not have makes the construction raise a
    [KeyError] naming it. *)
Theorem named_option_completions w section sd o v :
  getitem (DATA w) section = Ok sd ->
  sect_valtype sd = None ->
  config_get w section (PyStr o) = Ok v ->
  SettingValue_init w section (PyStr o)
  = match getitem (sect_items sd) o with
    | Ok vals =>
        Ok (mkSettingValue (current_category v :: allowed_categories vals) (mkItem 0 0 0))
    | Err _ => Err (KeyError (PyStr o))
    end
  /\ (forall vals, getitem (sect_items sd) o = Ok vals -> In (o, vals) (sect_items sd))
  /\ (~ In o (sect_keys sd) -> SettingValue_init w section (PyStr o) = Err (KeyError (PyStr o))).
Proof.
  intros Hsd Hval Hv.
  assert (Hinit : SettingValue_init w section (PyStr o)
                  = bind (getitem (sect_items sd) o) (fun vals =>
                    Ok (mkSettingValue (current_category v :: allowed_categories vals)
                                       (mkItem 0 0 0)))).
  { rewrite SettingValue_init_normal, Hv. unfold allowed_for. rewrite Hsd. cbn [bind].
    rewrite Hval. reflexivity. }
  rewrite Hinit. split; [|split].
  - destruct (getitem (sect_items sd) o) as [vals|e] eqn:Hget; [reflexivity|].
    apply getitem_Err in Hget as [-> _]. reflexivity.
  - intros vals. apply getitem_Ok.
  - intros Hnot. destruct (getitem (sect_items sd) o) as [vals|e] eqn:Hget.
    + apply getitem_Ok in Hget. exfalso. apply Hnot.
      unfold sect_keys. apply in_map_iff. exists (o, vals). auto.
    + apply getitem_Err in Hget as [-> _]. reflexivity.
Qed.

(** X18. In a section with one shared [valtype] the option is not looked up:
    whatever option is given, even one the section does not have, the
    construction succeeds and offers the completions of the shared type. *)
Theorem shared_valtype_ignores_option w section sd shared opt v :
  getitem (DATA w) section = Ok sd ->
  sect_valtype sd = Some shared ->
  config_get w section opt = Ok v ->
  SettingValue_init w section opt
  = Ok (mkSettingValue (current_category v :: allowed_categories shared) (mkItem 0 0 0)).
Proof.
  intros Hsd Hval Hv. rewrite SettingValue_init_normal, Hv. unfold allowed_for.
  rewrite Hsd. cbn [bind]. rewrite Hval. reflexivity.
Qed.

(** X19. The order of failure in the construction of
    [SettingValueCompletionModel]: an error of [config.get] comes first, and
    with the configuration readable a section that [configdata.DATA] does not
    have gives a [KeyError] naming the section. *)
Theorem SettingValue_init_failures w section opt :
  (forall e, config_get w section opt = Err e -> SettingValue_init w section opt = Err e)
  /\ (forall v, config_get w section opt = Ok v ->
        ~ In section (map fst (DATA w)) ->
        SettingValue_init w section opt = Err (KeyError (PyStr section))).
Proof.
  split.
  - intros e He. rewrite SettingValue_init_normal, He. reflexivity.
  - intros v Hv Hnot. rewrite SettingValue_init_normal, Hv. unfold allowed_for.
    destruct (getitem (DATA w) section) as [sd|e] eqn:Hget.
    + apply getitem_Ok in Hget. exfalso. apply Hnot.
      apply in_map_iff. exists (section, sd). auto.
    + apply getitem_Err in Hget as [-> _]. reflexivity.
Qed.

(** ** Commands and help topics *)

(** X20. With an empty command registry neither [CommandCompletionModel] nor
    [HelpCompletionModel] can be constructed: the [assert] fails before any
    category is opened, whatever the settings metadata looks like. *)
Theorem empty_registry_fails_assert w :
  cmd_dict w = ∅ ->
  Command_init w = Err AssertionError /\ Help_init w = Err AssertionError.
Proof.
  intros Hempty. unfold Help_init, Command_init, _init_commands, assert_cmd_dict.
  destruct (decide (cmd_dict w = ∅)) as [_|Hne]; [|contradiction].
  split; reflexivity.
Qed.

Lemma described_names sd shown keys rows :
  Forall2 (described sd shown) keys rows ->
  map row_name rows = map (fun o => PyStr (shown o)) keys.
Proof.
  induction 1 as [|opt r keys rows [desc [_ [Hn _]]] _ IH]; [reflexivity|].
  cbn. rewrite Hn, IH. reflexivity.
Qed.

Definition setting_names (data : list (string * SectData)) : list pyval :=
  flat_map (fun sect : string * SectData =>
              map (fun o => PyStr (fst sect +:+ "->" +:+ o)) (sect_keys (snd sect)))
           data.

Lemma length_setting_names data :
  List.length (setting_names data)
  = list_sum (map (fun sect => List.length (sect_keys (snd sect))) data).
Proof.
  unfold setting_names. induction data as [|sect data IH]; [reflexivity|].
  cbn [flat_map map list_sum]. rewrite length_app, length_map, IH. reflexivity.
Qed.

Lemma help_sections_names c0 n s data : forall rows m,
  foldM (fun m' (sect : string * SectData) =>
           foldM (help_add_option 1 (fst sect) (snd sect)) (sect_keys (snd sect)) m')
        data [c0; mkCat n s rows] = Ok m ->
  exists rows', m = [c0; mkCat n s (rows ++ rows')]
                /\ map row_name rows' = setting_names data.
Proof.
  induction data as [|[sn sd] data IH]; intros rows m Hm; cbn [foldM] in Hm.
  - injection Hm as <-. exists []. rewrite app_nil_r. auto.
  - cbn [fst snd] in Hm.
    destruct (foldM (help_add_option 1 sn sd) (sect_keys sd) [c0; mkCat n s rows])
      as [m1|e] eqn:Hinner; [|discriminate].
    cbn [bind] in Hm.
    apply help_options_rows in Hinner as [rows1 [-> Hrows1]].
    apply IH in Hm as [rows2 [-> Hrows2]].
    exists (rows1 ++ rows2). rewrite app_assoc. split; [reflexivity|].
    rewrite map_app, Hrows2, (described_names _ _ _ _ Hrows1). reflexivity.
Qed.

(** X21. A constructed [HelpCompletionModel] has exactly two categories,
    Commands and then Settings, and the Settings category has one row for
    every option of every section, named [section->option], in the order of
    [configdata.DATA] and of the options within each section. *)
Theorem help_model_layout w m :
  Help_init w = Ok m ->
  exists command_rows setting_rows,
    m = [mkCat "Commands" None command_rows; mkCat "Settings" None setting_rows]
    /\ map row_name setting_rows = setting_names (DATA w)
    /\ List.length setting_rows
       = list_sum (map (fun sect => List.length (sect_keys (snd sect))) (DATA w)).
Proof.
  unfold Help_init.
  destruct (_init_commands w []) as [m0|e] eqn:Hcmds; [|discriminate].
  cbn [bind]. intros Hm.
  assert (exists rows0, m0 = [mkCat "Commands" None rows0]) as [rows0 ->].
  { revert Hcmds. unfold _init_commands.
    destruct (assert_cmd_dict w); [|discriminate].
    cbn [bind new_category app List.length]. rewrite new_items_first.
    intros Heq. injection Heq as <-. eauto. }
  revert Hm. unfold _init_settings. cbn [new_category app List.length]. intros Hm.
  apply help_sections_names in Hm as [rows [-> Hnames]].
  exists rows0, rows. split; [reflexivity|]. split; [exact Hnames|].
  transitivity (List.length (map row_name rows)); [symmetry; apply length_map|].
  rewrite Hnames. apply length_setting_names.
Qed.

(** ** [sorted] does not depend on the order of its input *)

Lemma tuple_le_antisym p q : tuple_le p q -> tuple_le q p -> p = q.
Proof.
  destruct p as [a b], q as [c d]. unfold tuple_le, str_le. cbn [fst snd].
  intros [Hlt|[-> Hle]] [Hlt'|[Heq Hle']].
  - destruct (lt_irrefl _ (lt_trans _ _ _ Hlt Hlt')).
  - subst. destruct (lt_irrefl _ Hlt).
  - destruct (lt_irrefl _ Hlt').
  - f_equal. destruct Hle as [->|Hlt]; [reflexivity|].
    destruct Hle' as [->|Hlt']; [reflexivity|].
    destruct (lt_irrefl _ (lt_trans _ _ _ Hlt Hlt')).
Qed.

Lemma sorted_unique l1 l2 : Permutation l1 l2 -> sorted l1 = sorted l2.
Proof.
  intros Hperm.
  apply (StronglySorted_unique_strong tuple_le).
  - intros x y _ _. apply tuple_le_antisym.
  - apply sorted_ordered.
  - apply sorted_ordered.
  - rewrite (sorted_perm l1), (sorted_perm l2). exact Hperm.
Qed.

(** The list [CommandCompletionModel.__init__] sorts, had the loop visited
    the command objects in the order [objs]. *)
Definition cmdlist_visiting (w : World) (objs : list Command) : list (string * string) :=
  map (fun c => (cmd_name c, cmd_desc c)) (filter (fun c => listed w c = true) objs)
  ++ map (fun a => (fst a, "Alias for '" +:+ snd a +:+ "'")) (config_aliases w).

(** X23. The Commands rows do not depend on the order in which the loop
    visits the set of command objects: whatever that order, sorting the list
    it collects gives the same rows, and sorting them again changes
    nothing. *)
Theorem command_rows_ignore_visit_order w objs :
  Permutation objs (command_objects w) ->
  command_cmdlist w = cmdlist_visiting w (command_objects w)
  /\ sorted (cmdlist_visiting w objs) = sorted (command_cmdlist w)
  /\ sorted (sorted (command_cmdlist w)) = sorted (command_cmdlist w).
Proof.
  intros Hperm. split; [reflexivity|]. split.
  - apply sorted_unique. unfold command_cmdlist, cmdlist_visiting.
    apply Permutation_app_tail, Permutation_map.
    apply (filter_Permutation (fun c => listed w c = true)). exact Hperm.
  - apply sorted_unique, sorted_perm.
Qed.

(** ** [SettingSectionCompletionModel] *)

Section Strip.

Variable py_strip : string -> string.






End Strip.

(** ** Runs in the sample world *)

Definition later_get (section : string) (option : pyval) : result pyval :=
  match option with
  | PyNone => Ok PyNone
  | PyStr o => if String.eqb o "editor" then Ok (PyStr "emacs") else sample_get section option
  end.

(** The sample world after the editor setting was changed. *)
Definition later_world : World :=
  mkWorld later_get (config_aliases sample_world) (DATA sample_world)
          (cmd_dict sample_world) (cmd_object sample_world) (args_debug sample_world)
          (marks sample_world).

Definition broken_general : SectData :=
  mkSect [("editor", None)] (Some {[ "editor" := "" ]}) None.

Definition broken_world : World :=
  mkWorld sample_get [] [("general", broken_general)] (cmd_dict sample_world)
          sample_commands false [].

Definition unregistered_world : World :=
  mkWorld sample_get [] (DATA sample_world) ∅ sample_commands false [].

Definition constructed_general : SettingOptionCompletionModel :=
  mkSettingOption
    [mkCat "general" None
       [mkRow (PyStr "editor") (PyStr "The editor to use.") (PyStr "vim");
        mkRow (PyStr "startpage") (PyStr "") (PyStr "")]]
    (<["startpage" := mkItem 0 1 2]> (<["editor" := mkItem 0 0 2]> ∅)).

Lemma sample_general_NoDup : NoDup (sect_keys sample_general).
Proof. apply NoDup_ListNoDup. repeat constructor; cbn; intuition discriminate. Qed.

Lemma misc_items_point_at_rows_witness :
  List.length (rows_of (so_model constructed_general) 0)
  = List.length (sect_keys sample_general).
Proof.
  exact (proj1 (misc_items_point_at_rows sample_world "general" sample_general
                  constructed_general eq_refl eq_refl sample_general_NoDup)).
Defined.

Lemma update_after_construction_witness :
  so_model (final (update_misc_column item_setData later_world "general" "editor"
                     constructed_general))
  = [mkCat "general" None
       (alter (set_cell 2 (PyStr "emacs")) 0%nat (rows_of (so_model constructed_general) 0))].
Proof.
  exact (proj2 (proj2 (proj2
           (update_after_construction sample_world later_world "general" sample_general
              constructed_general 0%nat "editor" (PyStr "emacs")
              eq_refl eq_refl sample_general_NoDup eq_refl eq_refl)))).
Defined.

Lemma empty_description_breaks_construction_witness :
  exists e, SettingOption_init broken_world "general" = Err e.
Proof.
  exact (proj1 (proj2
           (empty_description_breaks_construction broken_world "general" broken_general
              {[ "editor" := "" ]} "editor" eq_refl (or_introl eq_refl) eq_refl eq_refl))).
Defined.

Lemma shown_descriptions_are_single_lines_witness :
  exists name d,
    sect_keys sample_general !! 0%nat = Some name
    /\ row_name (mkRow (PyStr "editor") (PyStr "The editor to use.") (PyStr "vim"))
       = PyStr name
    /\ row_desc (mkRow (PyStr "editor") (PyStr "The editor to use.") (PyStr "vim"))
       = PyStr d
    /\ no_line_break d = true
    /\ ((d = "" /\ undescribed sample_general name)
        \/ exists ds text,
             sect_descriptions sample_general = Some ds /\ ds !! name = Some text
             /\ text <> "" /\ before_first_line_break text d).
Proof.
  exact (shown_descriptions_are_single_lines sample_world "general" sample_general
           constructed_general eq_refl eq_refl 0%nat _ eq_refl).
Defined.

Lemma refresh_equals_reconstruction_witness :
  exists self',
    SettingValue_init later_world "general" (PyStr "editor") = Ok self'
    /\ update_current_value item_setData later_world "general" (PyStr "editor")
         (mkSettingValue [current_category (PyStr "vim")] (mkItem 0 0 0))
       = returns self'.
Proof.
  exact (refresh_equals_reconstruction sample_world later_world "general" (PyStr "editor")
           _ (PyStr "emacs") eq_refl eq_refl eq_refl).
Defined.

Lemma named_option_completions_witness :
  SettingValue_init sample_world "general" (PyStr "startpage")
  = Ok (mkSettingValue
          (current_category (PyStr "")
           :: allowed_categories (Some [("about:blank", "An empty page")]))
          (mkItem 0 0 0)).
Proof.
  exact (proj1 (named_option_completions sample_world "general" sample_general
                  "startpage" (PyStr "") eq_refl eq_refl eq_refl)).
Defined.

Lemma shared_valtype_ignores_option_witness :
  SettingValue_init sample_world "searchengines" (PyStr "editor")
  = Ok (mkSettingValue
          (current_category (PyStr "vim")
           :: allowed_categories (Some [("{}", "The search term")]))
          (mkItem 0 0 0)).
Proof.
  exact (shared_valtype_ignores_option sample_world "searchengines" sample_searchengines
           (Some [("{}", "The search term")]) (PyStr "editor") (PyStr "vim")
           eq_refl eq_refl eq_refl).
Defined.

Lemma empty_registry_fails_assert_witness :
  Command_init unregistered_world = Err AssertionError
  /\ Help_init unregistered_world = Err AssertionError.
Proof. exact (empty_registry_fails_assert unregistered_world eq_refl). Defined.

Lemma help_model_layout_witness :
  exists command_rows setting_rows,
    match Help_init sample_world with Ok m => m | Err _ => [] end
    = [mkCat "Commands" None command_rows; mkCat "Settings" None setting_rows]
    /\ map row_name setting_rows = setting_names (DATA sample_world)
    /\ List.length setting_rows
       = list_sum (map (fun sect => List.length (sect_keys (snd sect))) (DATA sample_world)).
Proof.
  exact (help_model_layout sample_world _ eq_refl).
Defined.

Lemma command_rows_ignore_visit_order_witness :
  sorted (cmdlist_visiting sample_world (rev (command_objects sample_world)))
  = sorted (command_cmdlist sample_world).
Proof.
  exact (proj1 (proj2 (command_rows_ignore_visit_order sample_world
                         (rev (command_objects sample_world))
                         (Permutation_sym (Permutation_rev _))))).
Defined.

End CompletionLaws.
